(** * Codex testnet metrics dashboard: the logic of [src/pages/index.js]

    A shallow embedding of the [Dashboard] component: the derived statistics
    (average peer count, distinct peer ids, version distribution), the
    pagination helpers, the peer-id search effect, the asynchronous loader
    [fetchData] and the part of the render function that chooses what the
    page shows.

    Conventions of the embedding.
    - A JavaScript string is a [string]: a sequence of code units in the range
      U+0000..U+00FF, which covers peer identifiers and version strings.
    - A JavaScript number that is an integer by construction (an array length,
      a page number, the [peer_count] column, a counter) is a [Z]; integer
      sums and products are exact in double precision below [2^53].  A
      quotient is not an integer in general: [/] is binary64 division,
      [SFdiv 53 1024] of the standard library's IEEE 754 specification.
    - React state is the record [DashboardState]; a state setter is a function
      on that record, and an [async] function is a tree of state updates and
      awaited queries. *)

From Stdlib Require Import ZArith Lia Bool Ascii String List.
From Stdlib Require Import DecimalString.
From Stdlib Require Import SpecFloat.
From stdpp Require Import base tactics list strings.

Import ListNotations.
Local Open Scope string_scope.
Local Open Scope Z_scope.

(** ** Strings *)

Module JsString.

(** Code units of [String.prototype.toLowerCase] inside U+0000..U+00FF:
    A-Z, and the Latin-1 capitals U+00C0..U+00DE except the multiplication
    sign U+00D7, move up by 32; everything else is left alone. *)
Definition lowerUnit (c : ascii) : ascii :=
  let n := N_of_ascii c in
  if ((65 <=? n) && (n <=? 90))%N
     || ((192 <=? n) && (n <=? 222) && negb (n =? 215))%N
  then ascii_of_N (n + 32)
  else c.

Fixpoint toLowerCase (s : string) : string :=
  match s with
  | EmptyString => EmptyString
  | String c s' => String (lowerUnit c) (toLowerCase s')
  end.

(** [t] occurs at the very start of [s]. *)
Fixpoint startsWith (s t : string) {struct t} : bool :=
  match t, s with
  | EmptyString, _ => true
  | String _ _, EmptyString => false
  | String b t', String a s' => Ascii.eqb a b && startsWith s' t'
  end.

(** [s.includes(t)]: [t] occurs in [s] at some position. *)
Fixpoint includes (s t : string) : bool :=
  startsWith s t ||
  match s with
  | EmptyString => false
  | String _ s' => includes s' t
  end.

(** White space and line terminators of ECMAScript inside U+0000..U+00FF:
    TAB, LF, VT, FF, CR, SPACE and NO-BREAK SPACE. *)
Definition isWhiteSpace (c : ascii) : bool :=
  let n := N_of_ascii c in
  ((9 <=? n) && (n <=? 13) || (n =? 32) || (n =? 160))%N.

Fixpoint trimStart (s : string) : string :=
  match s with
  | EmptyString => EmptyString
  | String c s' => if isWhiteSpace c then trimStart s' else s
  end.

Fixpoint rev (s : string) : string :=
  match s with
  | EmptyString => EmptyString
  | String c s' => (rev s' ++ String c EmptyString)%string
  end.

Definition trimEnd (s : string) : string := rev (trimStart (rev s)).

(** [s.trim()] *)
Definition trim (s : string) : string := trimEnd (trimStart s).

(** ToBoolean of a string: only the empty string is falsy. *)
Definition truthy (s : string) : bool :=
  match s with
  | EmptyString => false
  | String _ _ => true
  end.

(** Every code unit of [s] is white space. *)
Fixpoint blank (s : string) : bool :=
  match s with
  | EmptyString => true
  | String c s' => isWhiteSpace c && blank s'
  end.

(** The declarative reading of "contains as a substring". *)
Definition Substring (t s : string) : Prop :=
  exists pre post : string, s = (pre ++ t ++ post)%string.

End JsString.

(** ** Rows of the remote store *)

Record MetricRow := {
  date : string;
  new_records_count : Z
}.

Record NodeRecord := {
  peer_id : string;
  version : string;
  peer_count : Z;
  timestamp : string
}.

(** ** [Set]: insertion-ordered, membership by SameValueZero (string equality) *)

Module JsSet.

Definition has (s : list string) (x : string) : bool :=
  existsb (String.eqb x) s.

(** [s.add(x)]: appended after the existing members unless already there. *)
Definition add (s : list string) (x : string) : list string :=
  if has s x then s else s ++ [x].

(** [new Set(iterable)]: the members are added one by one, left to right. *)
Definition from (xs : list string) : list string :=
  fold_left add xs [].

(** Position of the first occurrence of [x] in [l]; [length l] if absent. *)
Fixpoint firstIndexOf (x : string) (l : list string) : nat :=
  match l with
  | [] => 0%nat
  | y :: l' => if String.eqb x y then 0%nat else S (firstIndexOf x l')
  end.

End JsSet.

(** [const activePeerIds = [...new Set(activeNodes.map((node) => node.peer_id))]] *)
Definition activePeerIds (activeNodes : list NodeRecord) : list string :=
  JsSet.from (map peer_id activeNodes).

(** The filter expression of the search effect:
    [activePeerIds.filter(peerId =>
       peerId.toLowerCase().includes(searchQuery.toLowerCase()))] *)
Definition searchFilter (ids : list string) (searchQuery : string) : list string :=
  List.filter
    (fun peerId =>
       JsString.includes (JsString.toLowerCase peerId)
                         (JsString.toLowerCase searchQuery))
    ids.

(** ** Numbers *)

Module JsNumber.

(** binary64 *)
Definition prec : Z := 53.
Definition emax : Z := 1024.

(** The double nearest to an integer (exact for [|z| <= 2^53]). *)
Definition ofInt (z : Z) : spec_float := binary_normalize prec emax z 0 false.

(** [a / b] on two integer-valued numbers. *)
Definition div (a b : Z) : spec_float := SFdiv prec emax (ofInt a) (ofInt b).

(** Integers that a double holds exactly and that [+] keeps exact. *)
Definition safe (z : Z) : bool := (- 2 ^ 53 <=? z) && (z <=? 2 ^ 53).

(** [a + b] on integer-valued numbers: the exact sum as long as operands
    and result are safe integers; [None] outside that range, where the
    double sum starts to round and this development stops following it. *)
Definition add (a b : Z) : option Z :=
  if safe a && safe b && safe (a + b) then Some (a + b) else None.

(** [Math.ceil(x)], as an integer; [None] for NaN and the infinities. *)
Definition Math_ceil (x : spec_float) : option Z :=
  match x with
  | S754_zero _ => Some 0
  | S754_finite false m e =>
      if 0 <=? e then Some (Zpos m * 2 ^ e)
      else Some ((Zpos m + 2 ^ (- e) - 1) / 2 ^ (- e))
  | S754_finite true m e =>
      if 0 <=? e then Some (- (Zpos m * 2 ^ e))
      else Some (- (Zpos m / 2 ^ (- e)))
  | S754_infinity _ | S754_nan => None
  end.

(** Step 9 of [Number.prototype.toFixed] for one fraction digit and
    [x = m * 2^e > 0]: the integer [n] for which [n / 10 - x] is as close to
    zero as possible, the larger one if there are two. *)
Definition tenths (m : positive) (e : Z) : Z :=
  if 0 <=? e then 10 * Zpos m * 2 ^ e
  else (20 * Zpos m + 2 ^ (- e)) / 2 ^ (1 - e).

(** The digits of [n >= 0] with a point before the last one: [15] is
    ["1.5"], [7] is ["0.7"]. *)
Definition fixed1 (n : Z) : string :=
  (NilZero.string_of_int (Z.to_int (n / 10)) ++ "." ++
   NilZero.string_of_int (Z.to_int (n mod 10)))%string.

(** [10^21 <= m * 2^e] *)
Definition atLeast1e21 (m : positive) (e : Z) : bool :=
  if 0 <=? e then 10 ^ 21 <=? Zpos m * 2 ^ e
  else 10 ^ 21 * 2 ^ (- e) <=? Zpos m.

(** [x.toFixed(1)].  From [10^21] on, [toFixed] hands over to
    [Number::toString], which is not part of this development: [None]. *)
Definition toFixed1 (x : spec_float) : option string :=
  match x with
  | S754_nan => Some "NaN"
  | S754_infinity false => Some "Infinity"
  | S754_infinity true => Some "-Infinity"
  | S754_zero _ => Some "0.0"
  | S754_finite s m e =>
      if atLeast1e21 m e then None
      else Some ((if s then "-" else "") ++ fixed1 (tenths m e))%string
  end.

End JsNumber.

(** ** Values and plain objects *)

Module JsObject.

(** The values that the expressions of the dashboard can produce. *)
Inductive value :=
| VUndefined
| VInt (n : Z)
| VNaN
| VString (s : string)
| VFunction (name : string)
| VObjectPrototype.

(** Own properties of an object created by the literal [{}], in creation
    order.  Its prototype is [Object.prototype]. *)
Definition t := list (string * value).

Definition empty : t := [].

(** The data properties of [Object.prototype]; all of them are built-in
    functions. *)
Definition prototypeMethods : list string :=
  [ "constructor"; "__defineGetter__"; "__defineSetter__"; "hasOwnProperty";
    "__lookupGetter__"; "__lookupSetter__"; "isPrototypeOf";
    "propertyIsEnumerable"; "toString"; "valueOf"; "toLocaleString" ].

(** The name of the function stored under [k]: [constructor] holds
    [Object], every other method is named after its key. *)
Definition builtinName (k : string) : string :=
  if String.eqb k "constructor" then "Object" else k.

(** Names that resolve through the prototype chain of [{}]. *)
Definition inherited (k : string) : bool :=
  String.eqb k "__proto__" || existsb (String.eqb k) prototypeMethods.

Fixpoint getOwn (o : t) (k : string) : option value :=
  match o with
  | [] => None
  | (k', v) :: o' => if String.eqb k k' then Some v else getOwn o' k
  end.

(** [o[k]]: an own property, else what [Object.prototype] has under [k]
    (the accessor [__proto__] returns the prototype itself), else
    [undefined]. *)
Definition get (o : t) (k : string) : value :=
  match getOwn o k with
  | Some v => v
  | None =>
      if String.eqb k "__proto__" then VObjectPrototype
      else if existsb (String.eqb k) prototypeMethods then VFunction (builtinName k)
      else VUndefined
  end.

Fixpoint setOwn (o : t) (k : string) (v : value) : t :=
  match o with
  | [] => [(k, v)]
  | (k', v') :: o' =>
      if String.eqb k k' then (k', v) :: o' else (k', v') :: setOwn o' k v
  end.

(** [o[k] = v] for [v] a number or a string.  The setter of the inherited
    accessor [__proto__] ignores values that are neither objects nor
    [null]; the inherited methods are writable data properties, so the
    assignment creates an own property that shadows them. *)
Definition set (o : t) (k : string) (v : value) : t :=
  if String.eqb k "__proto__" then o else setOwn o k v.

(** ToBoolean *)
Definition truthy (v : value) : bool :=
  match v with
  | VUndefined | VNaN => false
  | VInt n => negb (n =? 0)
  | VString s => JsString.truthy s
  | VFunction _ | VObjectPrototype => true
  end.

(** [v || 0] *)
Definition orZero (v : value) : value :=
  if truthy v then v else VInt 0.

(** Source text of a built-in function, as [Function.prototype.toString]
    gives it. *)
Definition functionSource (name : string) : string :=
  ("function " ++ name ++ "() { [native code] }")%string.

(** [v + 1]: numeric addition on numbers, concatenation with ["1"] once
    ToPrimitive of [v] is a string. *)
Definition plusOne (v : value) : value :=
  match v with
  | VInt n => VInt (n + 1)
  | VUndefined | VNaN => VNaN
  | VString s => VString (s ++ "1")%string
  | VFunction name => VString (functionSource name ++ "1")%string
  | VObjectPrototype => VString "[object Object]1"
  end.

(** The sum of the property values when all of them are integers. *)
Fixpoint sumOfCounts (o : t) : option Z :=
  match o with
  | [] => Some 0
  | (_, VInt n) :: o' =>
      match sumOfCounts o' with
      | Some s => Some (n + s)
      | None => None
      end
  | _ :: _ => None
  end.

End JsObject.

Import JsObject (value (..)).

(** ** Derived statistics (recomputed by every render) *)

(** [const currentActiveNodes = activeNodes.length] *)
Definition currentActiveNodes (activeNodes : list NodeRecord) : Z :=
  Z.of_nat (length activeNodes).

(** [activeNodes.reduce((acc, node) => acc + node.peer_count, 0)] *)
Definition peerCountTotal (activeNodes : list NodeRecord) : option Z :=
  fold_left
    (fun acc node =>
       match acc with
       | Some a => JsNumber.add a (peer_count node)
       | None => None
       end)
    activeNodes (Some 0).

(** [const averagePeerCount = activeNodes.length
      ? (activeNodes.reduce(...) / activeNodes.length).toFixed(1)
      : 0]
    [None] when the sum or the quotient leaves the range that [JsNumber]
    follows. *)
Definition averagePeerCount (activeNodes : list NodeRecord) : option value :=
  if Z.of_nat (length activeNodes) =? 0 then Some (VInt 0)
  else
    match peerCountTotal activeNodes with
    | Some total =>
        match JsNumber.toFixed1
                (JsNumber.div total (Z.of_nat (length activeNodes))) with
        | Some s => Some (VString s)
        | None => None
        end
    | None => None
    end.

(** [const versionDistribution = activeNodes.reduce((acc, node) => {
       acc[node.version] = (acc[node.version] || 0) + 1;
       return acc;
     }, {})] *)
Definition versionDistribution (activeNodes : list NodeRecord) : JsObject.t :=
  fold_left
    (fun acc node =>
       JsObject.set acc (version node)
         (JsObject.plusOne (JsObject.orZero (JsObject.get acc (version node)))))
    activeNodes JsObject.empty.

(** ** Pagination helpers *)

Definition ITEMS_PER_PAGE : Z := 5.

(** An index argument of [Array.prototype.slice] made absolute: negative
    values count from the end, everything is clamped to [0 .. len]. *)
Definition sliceIndex (len i : Z) : Z :=
  if i <? 0 then Z.max (len + i) 0 else Z.min i len.

(** [data.slice(start, end)] *)
Definition slice {A} (data : list A) (start end_ : Z) : list A :=
  let len := Z.of_nat (length data) in
  let k := sliceIndex len start in
  let final := sliceIndex len end_ in
  take (Z.to_nat (final - k)) (drop (Z.to_nat k) data).

(** [const getPaginatedData = (data, page, itemsPerPage = ITEMS_PER_PAGE) => {
       const startIndex = (page - 1) * itemsPerPage;
       return data.slice(startIndex, startIndex + itemsPerPage);
     }] *)
Definition getPaginatedData {A} (data : list A) (page itemsPerPage : Z) : list A :=
  let startIndex := (page - 1) * itemsPerPage in
  slice data startIndex (startIndex + itemsPerPage).

(** [const getPageCount = (totalItems, itemsPerPage = ITEMS_PER_PAGE) =>
       Math.ceil(totalItems / itemsPerPage)] *)
Definition getPageCount (totalItems itemsPerPage : Z) : option Z :=
  JsNumber.Math_ceil (JsNumber.div totalItems itemsPerPage).

(** ** Component state *)

Module ComponentLoading.
Record t := {
  metrics : bool;
  nodes : bool;
  versions : bool;
  peers : bool
}.
End ComponentLoading.

(** The [useState] cells of [Dashboard].  [error] is [null] ([None]) or the
    message of the error that the last load caught. *)
Record DashboardState := {
  metrics : list MetricRow;
  activeNodes : list NodeRecord;
  timeframe : string;
  loading : bool;
  error : option string;
  componentLoading : ComponentLoading.t;
  versionPage : Z;
  peerPage : Z;
  searchQuery : string;
  searchResults : list string;
  isSearching : bool
}.

(** The initial values passed to [useState]. *)
Definition initialState : DashboardState := {|
  metrics := [];
  activeNodes := [];
  timeframe := "7d";
  loading := true;
  error := None;
  componentLoading :=
    {| ComponentLoading.metrics := true; ComponentLoading.nodes := true;
       ComponentLoading.versions := true; ComponentLoading.peers := true |};
  versionPage := 1;
  peerPage := 1;
  searchQuery := "";
  searchResults := [];
  isSearching := false
|}.

Section Setters.

Variable st : DashboardState.

Definition setMetrics (v : list MetricRow) : DashboardState :=
  {| metrics := v; activeNodes := activeNodes st; timeframe := timeframe st;
     loading := loading st; error := error st;
     componentLoading := componentLoading st; versionPage := versionPage st;
     peerPage := peerPage st; searchQuery := searchQuery st;
     searchResults := searchResults st; isSearching := isSearching st |}.

Definition setActiveNodes (v : list NodeRecord) : DashboardState :=
  {| metrics := metrics st; activeNodes := v; timeframe := timeframe st;
     loading := loading st; error := error st;
     componentLoading := componentLoading st; versionPage := versionPage st;
     peerPage := peerPage st; searchQuery := searchQuery st;
     searchResults := searchResults st; isSearching := isSearching st |}.

Definition setLoading (v : bool) : DashboardState :=
  {| metrics := metrics st; activeNodes := activeNodes st;
     timeframe := timeframe st; loading := v; error := error st;
     componentLoading := componentLoading st; versionPage := versionPage st;
     peerPage := peerPage st; searchQuery := searchQuery st;
     searchResults := searchResults st; isSearching := isSearching st |}.

Definition setError (v : option string) : DashboardState :=
  {| metrics := metrics st; activeNodes := activeNodes st;
     timeframe := timeframe st; loading := loading st; error := v;
     componentLoading := componentLoading st; versionPage := versionPage st;
     peerPage := peerPage st; searchQuery := searchQuery st;
     searchResults := searchResults st; isSearching := isSearching st |}.

(** The setter is also called with an updater function [prev => ...]. *)
Definition setComponentLoading
    (f : ComponentLoading.t -> ComponentLoading.t) : DashboardState :=
  {| metrics := metrics st; activeNodes := activeNodes st;
     timeframe := timeframe st; loading := loading st; error := error st;
     componentLoading := f (componentLoading st);
     versionPage := versionPage st; peerPage := peerPage st;
     searchQuery := searchQuery st; searchResults := searchResults st;
     isSearching := isSearching st |}.

Definition setVersionPage (v : Z) : DashboardState :=
  {| metrics := metrics st; activeNodes := activeNodes st;
     timeframe := timeframe st; loading := loading st; error := error st;
     componentLoading := componentLoading st; versionPage := v;
     peerPage := peerPage st; searchQuery := searchQuery st;
     searchResults := searchResults st; isSearching := isSearching st |}.

Definition setPeerPage (v : Z) : DashboardState :=
  {| metrics := metrics st; activeNodes := activeNodes st;
     timeframe := timeframe st; loading := loading st; error := error st;
     componentLoading := componentLoading st; versionPage := versionPage st;
     peerPage := v; searchQuery := searchQuery st;
     searchResults := searchResults st; isSearching := isSearching st |}.

Definition setSearchQuery (v : string) : DashboardState :=
  {| metrics := metrics st; activeNodes := activeNodes st;
     timeframe := timeframe st; loading := loading st; error := error st;
     componentLoading := componentLoading st; versionPage := versionPage st;
     peerPage := peerPage st; searchQuery := v;
     searchResults := searchResults st; isSearching := isSearching st |}.

Definition setSearchResults (v : list string) : DashboardState :=
  {| metrics := metrics st; activeNodes := activeNodes st;
     timeframe := timeframe st; loading := loading st; error := error st;
     componentLoading := componentLoading st; versionPage := versionPage st;
     peerPage := peerPage st; searchQuery := searchQuery st;
     searchResults := v; isSearching := isSearching st |}.

Definition setIsSearching (v : bool) : DashboardState :=
  {| metrics := metrics st; activeNodes := activeNodes st;
     timeframe := timeframe st; loading := loading st; error := error st;
     componentLoading := componentLoading st; versionPage := versionPage st;
     peerPage := peerPage st; searchQuery := searchQuery st;
     searchResults := searchResults st; isSearching := v |}.

End Setters.

(** State setters are applied in the order in which they were called. *)
Notation "st |> f" := (f st) (at level 45, left associativity, only parsing).

(** ** The search effect

    [useEffect(() => {
       if (searchQuery.trim()) {
         setIsSearching(true);
         const results = activePeerIds.filter(...);
         setSearchResults(results);
         setPeerPage(1);
         setIsSearching(false);
       } else {
         setSearchResults([]);
       }
     }, [searchQuery])] *)
Definition searchEffect (st : DashboardState) : DashboardState :=
  if JsString.truthy (JsString.trim (searchQuery st)) then
    let results := searchFilter (activePeerIds (activeNodes st)) (searchQuery st) in
    st |> (fun s => setIsSearching s true)
       |> (fun s => setSearchResults s results)
       |> (fun s => setPeerPage s 1)
       |> (fun s => setIsSearching s false)
  else
    setSearchResults st [].

(** [onChange={(e) => setSearchQuery(e.target.value)}] on the search box,
    followed by the effects of the next render: the search effect runs when
    its dependency [searchQuery] has changed. *)
Definition onSearchChange (q : string) (st : DashboardState) : DashboardState :=
  if String.eqb q (searchQuery st) then st
  else searchEffect (setSearchQuery st q).

(** ** What the render function derives for the peer list *)

(** [const displayPeerIds = searchQuery ? searchResults : activePeerIds] *)
Definition displayPeerIds (st : DashboardState) : list string :=
  if JsString.truthy (searchQuery st) then searchResults st
  else activePeerIds (activeNodes st).

(** [const paginatedPeerIds = getPaginatedData(displayPeerIds, peerPage)] *)
Definition paginatedPeerIds (st : DashboardState) : list string :=
  getPaginatedData (displayPeerIds st) (peerPage st) ITEMS_PER_PAGE.

(** [const totalPeerPages = getPageCount(displayPeerIds.length)] *)
Definition totalPeerPages (st : DashboardState) : option Z :=
  getPageCount (Z.of_nat (length (displayPeerIds st))) ITEMS_PER_PAGE.

(** The "next" button of [PaginationControls] under the peer list:
    [onClick={() => onPageChange(currentPage + 1)}],
    [disabled={currentPage >= totalPages}]. *)
Definition clickNextPeerPage (st : DashboardState) : DashboardState :=
  match totalPeerPages st with
  | Some totalPages =>
      if totalPages <=? peerPage st then st else setPeerPage st (peerPage st + 1)
  | None => setPeerPage st (peerPage st + 1)
  end.

(** The "previous" button: [disabled={currentPage <= 1}]. *)
Definition clickPreviousPeerPage (st : DashboardState) : DashboardState :=
  if peerPage st <=? 1 then st else setPeerPage st (peerPage st - 1).

(** The alternatives of the "Active Peer IDs" card. *)
Inductive PeersPanel :=
| PeersSkeleton
| NoActivePeers                 (* "No active peers available" *)
| SearchSpinner
| NoMatchingPeers               (* "No matching peer IDs found" *)
| PeerList (items : list string) (currentPage : Z) (totalPages : option Z).

(** [{componentLoading.peers ? <ComponentSkeleton/>
      : activePeerIds.length === 0 ? ...
      : isSearching ? ...
      : searchQuery && searchResults.length === 0 ? ...
      : <>{paginatedPeerIds.map(...)}<PaginationControls .../></>}] *)
Definition peersPanel (st : DashboardState) : PeersPanel :=
  if ComponentLoading.peers (componentLoading st) then PeersSkeleton
  else if Z.of_nat (length (activePeerIds (activeNodes st))) =? 0 then NoActivePeers
  else if isSearching st then SearchSpinner
  else if JsString.truthy (searchQuery st)
          && (Z.of_nat (length (searchResults st)) =? 0)
       then NoMatchingPeers
  else PeerList (paginatedPeerIds st) (peerPage st) (totalPeerPages st).

(** ** The body of [<main>] *)

(** Identifiers that are bound where the JSX of [Dashboard] is evaluated:
    the imports of the module, its two constants, and the constants declared
    in the body of [Dashboard]. *)
Definition bindings : list string :=
  [ "useEffect"; "useState"; "createClient"; "motion"; "format"; "isToday";
    "isYesterday"; "Image"; "Activity"; "Users"; "Network"; "Database";
    "Clock"; "AlertTriangle"; "RotateCw"; "Search"; "ChevronLeft";
    "ChevronRight"; "Globe"; "Info"; "LineChart"; "Line"; "XAxis"; "YAxis";
    "CartesianGrid"; "Tooltip"; "ResponsiveContainer"; "Tabs"; "TabsContent";
    "TabsList"; "TabsTrigger"; "Dialog"; "DialogContent"; "DialogDescription";
    "DialogHeader"; "DialogTitle"; "DialogTrigger"; "Head"; "supabase";
    "ITEMS_PER_PAGE"; "Dashboard";
    "metrics"; "setMetrics"; "activeNodes"; "setActiveNodes"; "timeframe";
    "setTimeframe"; "loading"; "setLoading"; "error"; "setError";
    "componentLoading"; "setComponentLoading"; "versionPage"; "setVersionPage";
    "peerPage"; "setPeerPage"; "searchQuery"; "setSearchQuery";
    "searchResults"; "setSearchResults"; "isSearching"; "setIsSearching";
    "fetchData"; "getPaginatedData"; "getPageCount"; "PaginationControls";
    "ComponentSkeleton"; "formatLastUpdated"; "currentActiveNodes";
    "averagePeerCount"; "activePeerIds"; "totalNodes"; "versionDistribution";
    "lastUpdated"; "versionEntries"; "paginatedVersions"; "displayPeerIds";
    "paginatedPeerIds"; "totalVersionPages"; "totalPeerPages" ].

Definition bound (name : string) : bool := existsb (String.eqb name) bindings.

Inductive MainView :=
| ErrorStateView (message : string)   (* [<ErrorState message={error} />] *)
| Sections (peers : PeersPanel).      (* the stat cards, chart and lists *)

(** Evaluating an expression either gives a value or throws. *)
Inductive Completion (A : Type) :=
| Normal (v : A)
| Throw (exception : string).
Arguments Normal {A} v.
Arguments Throw {A} exception.

(** [{error ? (<ErrorState message={error} />) : (<div>...</div>)}]
    A JSX element names its component by an identifier reference;
    evaluating a reference to an identifier without binding throws a
    ReferenceError. *)
Definition mainView (st : DashboardState) : Completion MainView :=
  match error st with
  | Some message =>
      if JsString.truthy message then
        if bound "ErrorState" then Normal (ErrorStateView message)
        else Throw "ReferenceError: ErrorState is not defined"
      else Normal (Sections (peersPanel st))
  | None => Normal (Sections (peersPanel st))
  end.

(** ** The loader *)

(** What a query of the store client resolves to: [{ data, error }], the
    error being given by its message. *)
Record QueryResult (A : Type) := {
  q_data : option (list A);
  q_error : option string
}.
Arguments q_data {A} _.
Arguments q_error {A} _.

(** An asynchronous function over the component state: state updates, and
    awaited queries whose continuation receives the result. *)
Inductive Async :=
| Done
| Update (f : DashboardState -> DashboardState) (k : Async)
| AwaitMetrics (limit : Z) (k : QueryResult MetricRow -> Async)
| AwaitNodes (k : QueryResult NodeRecord -> Async).

(** [finally { setLoading(false); }] *)
Definition finallyBlock : Async :=
  Update (fun s => setLoading s false) Done.

(** [catch (error) { console.error(...); setError(error.message); }] *)
Definition catchBlock (message : string) : Async :=
  Update (fun s => setError s (Some message)) finallyBlock.

(** [data || []] *)
Definition orEmpty {A} (data : option (list A)) : list A :=
  match data with
  | Some l => l
  | None => []
  end.

(** [!data?.length] *)
Definition noLength {A} (data : option (list A)) : bool :=
  Z.of_nat (length (orEmpty data)) =? 0.

(** [timeframe === "7d" ? 7 : timeframe === "30d" ? 30 : 365] *)
Definition metricsLimit (timeframe : string) : Z :=
  if String.eqb timeframe "7d" then 7
  else if String.eqb timeframe "30d" then 30
  else 365.

Definition allLoading : ComponentLoading.t :=
  {| ComponentLoading.metrics := true; ComponentLoading.nodes := true;
     ComponentLoading.versions := true; ComponentLoading.peers := true |}.

(** [prev => ({ ...prev, metrics: false })] *)
Definition metricsLoaded (prev : ComponentLoading.t) : ComponentLoading.t :=
  {| ComponentLoading.metrics := false;
     ComponentLoading.nodes := ComponentLoading.nodes prev;
     ComponentLoading.versions := ComponentLoading.versions prev;
     ComponentLoading.peers := ComponentLoading.peers prev |}.

(** [prev => ({ ...prev, nodes: false, versions: false, peers: false })] *)
Definition nodesLoaded (prev : ComponentLoading.t) : ComponentLoading.t :=
  {| ComponentLoading.metrics := ComponentLoading.metrics prev;
     ComponentLoading.nodes := false;
     ComponentLoading.versions := false;
     ComponentLoading.peers := false |}.

(** [const fetchData = async () => { ... }], with the [timeframe] of the
    render that created it. *)
Definition fetchData (timeframe : string) : Async :=
  Update (fun s => setLoading s true) (
  Update (fun s => setError s None) (
  Update (fun s => setComponentLoading s (fun _ => allLoading)) (
  AwaitMetrics (metricsLimit timeframe) (fun metricsResult =>
    match q_error metricsResult with
    | Some metricsError => catchBlock metricsError
    | None =>
        Update (fun s => setMetrics s (orEmpty (q_data metricsResult))) (
        Update (fun s => setComponentLoading s metricsLoaded) (
        AwaitNodes (fun nodesResult =>
          match q_error nodesResult with
          | Some nodesError => catchBlock nodesError
          | None =>
              Update (fun s => setActiveNodes s (orEmpty (q_data nodesResult))) (
              Update (fun s => setComponentLoading s nodesLoaded) (
              if noLength (q_data metricsResult) && noLength (q_data nodesResult)
              then catchBlock "No data available"
              else finallyBlock))
          end)))
    end)))).

(** Where an asynchronous function stands when it gives control back. *)
Inductive Suspended :=
| Finished
| WaitingForMetrics (limit : Z) (k : QueryResult MetricRow -> Async)
| WaitingForNodes (k : QueryResult NodeRecord -> Async).

(** Run up to the next [await] (or the end), applying the state updates. *)
Fixpoint advance (p : Async) (st : DashboardState) : DashboardState * Suspended :=
  match p with
  | Done => (st, Finished)
  | Update f k => advance k (f st)
  | AwaitMetrics limit k => (st, WaitingForMetrics limit k)
  | AwaitNodes k => (st, WaitingForNodes k)
  end.

(** Run to completion, the store answering [metricsResult] to the metrics
    query and [nodesResult] to the nodes query. *)
Fixpoint run (p : Async) (metricsResult : QueryResult MetricRow)
    (nodesResult : QueryResult NodeRecord) (st : DashboardState) : DashboardState :=
  match p with
  | Done => st
  | Update f k => run k metricsResult nodesResult (f st)
  | AwaitMetrics _ k => run (k metricsResult) metricsResult nodesResult st
  | AwaitNodes k => run (k nodesResult) metricsResult nodesResult st
  end.


(** ** Vocabulary of the statements *)

(** A peer id matches a query when its lower-cased text contains the
    lower-cased query. *)
Definition Matches (query peerId : string) : Prop :=
  JsString.Substring (JsString.toLowerCase query) (JsString.toLowerCase peerId).

(** [n / 10] is a one-decimal value nearest to [total / len]. *)
Definition NearestTenth (total len n : Z) : Prop :=
  2 * Z.abs (10 * total - n * len) <= len.

(** A node record for examples. *)
Definition node (peerId ver : string) (count : Z) : NodeRecord :=
  {| peer_id := peerId; version := ver; peer_count := count; timestamp := "" |}.

(** Answers of the store: a successful query with the given rows. *)
Definition rows {A} (data : list A) : QueryResult A :=
  {| q_data := Some data; q_error := None |}.

(** One load cycle from the initial state that found [nodes] and one
    metrics row. *)
Definition loadedWith (nodes : list NodeRecord) : DashboardState :=
  run (fetchData "7d")
      (rows [ {| date := "2024-01-01"; new_records_count := 3 |} ])
      (rows nodes) initialState.

(** Six nodes with six distinct peer ids, all containing the letter p. *)
Definition sixPeers : list NodeRecord :=
  [ node "p1" "1.0" 4; node "p2" "1.0" 4; node "p3" "1.0" 4;
    node "p4" "1.0" 4; node "p5" "1.0" 4; node "p6" "1.0" 4 ].

(** The six peers are loaded, the user types "p" into the search box and
    moves to the second page of the results. *)
Definition searchedThenNextPage : DashboardState :=
  clickNextPeerPage (onSearchChange "p" (loadedWith sixPeers)).

(** The objects that the reducer builds from ordinary version strings:
    every own property holds a positive integer. *)
Definition Counting (o : JsObject.t) : Prop :=
  Forall (fun kv => exists n : Z, kv.2 = VInt n /\ 0 < n) o.

(** A location that is not exact. *)
Definition inexact (l : location) : bool :=
  match l with loc_Exact => false | loc_Inexact _ => true end.

(** The exact sum of the [peer_count] column. *)
Definition sumPeerCounts (nodes : list NodeRecord) : Z :=
  foldr (fun n s => peer_count n + s) 0 nodes.


(** Twenty rows with three peers in total: the mean is exactly 0.15. *)
Definition twentyNodes : list NodeRecord :=
  node "A" "1.0" 3 :: repeat (node "B" "1.0" 0) 19.


(** ** The rest of the component *)

(** [const totalNodes = metrics.reduce((acc, day) => acc + day.new_records_count, 0)] *)
Definition totalNodes (metrics : list MetricRow) : option Z :=
  fold_left
    (fun acc day =>
       match acc with
       | Some a => JsNumber.add a (new_records_count day)
       | None => None
       end)
    metrics (Some 0).

(** The numeric value of a property key that is an array index: the
    canonical decimal text of an integer from 0 to [2^32 - 2]. *)
Definition arrayIndex (k : string) : option N :=
  match NilEmpty.uint_of_string k with
  | Some u =>
      let i := N.of_uint u in
      if String.eqb (NilZero.string_of_uint (N.to_uint i)) k
         && (i <=? 4294967294)%N
      then Some i else None
  | None => None
  end.

(** Own properties whose key is an array index, with that index. *)
Fixpoint indexedProperties (o : JsObject.t) : list (N * (string * value)) :=
  match o with
  | [] => []
  | (k, v) :: o' =>
      match arrayIndex k with
      | Some i => (i, (k, v)) :: indexedProperties o'
      | None => indexedProperties o'
      end
  end.

(** Own properties whose key is not an array index, in creation order. *)
Fixpoint namedProperties (o : JsObject.t) : JsObject.t :=
  match o with
  | [] => []
  | (k, v) :: o' =>
      match arrayIndex k with
      | Some _ => namedProperties o'
      | None => (k, v) :: namedProperties o'
      end
  end.

Fixpoint insertByIndex (e : N * (string * value))
    (l : list (N * (string * value))) : list (N * (string * value)) :=
  match l with
  | [] => [e]
  | e' :: l' =>
      if (e.1 <=? e'.1)%N then e :: l else e' :: insertByIndex e l'
  end.

(** [Object.entries(o)]: the own properties, array indices first in
    ascending numeric order, then the other keys in creation order. *)
Definition Object_entries (o : JsObject.t) : list (string * value) :=
  map snd (foldr insertByIndex [] (indexedProperties o)) ++ namedProperties o.

(** [Object.keys(o)] *)
Definition Object_keys (o : JsObject.t) : list string :=
  map fst (Object_entries o).

(** [const versionEntries = Object.entries(versionDistribution)] *)
Definition versionEntries (st : DashboardState) : list (string * value) :=
  Object_entries (versionDistribution (activeNodes st)).

(** [const paginatedVersions = getPaginatedData(versionEntries, versionPage)] *)
Definition paginatedVersions (st : DashboardState) : list (string * value) :=
  getPaginatedData (versionEntries st) (versionPage st) ITEMS_PER_PAGE.

(** [const totalVersionPages = getPageCount(versionEntries.length)] *)
Definition totalVersionPages (st : DashboardState) : option Z :=
  getPageCount (Z.of_nat (length (versionEntries st))) ITEMS_PER_PAGE.

(** The "next" and "previous" buttons of [PaginationControls] under the
    version list ([onPageChange={setVersionPage}]). *)
Definition clickNextVersionPage (st : DashboardState) : DashboardState :=
  match totalVersionPages st with
  | Some totalPages =>
      if totalPages <=? versionPage st then st
      else setVersionPage st (versionPage st + 1)
  | None => setVersionPage st (versionPage st + 1)
  end.

Definition clickPreviousVersionPage (st : DashboardState) : DashboardState :=
  if versionPage st <=? 1 then st else setVersionPage st (versionPage st - 1).

(** The alternatives of the "Version Distribution" card. *)
Inductive VersionsPanel :=
| VersionsSkeleton
| NoVersionData                 (* "No version data available" *)
| VersionList (items : list (string * value)) (currentPage : Z)
              (totalPages : option Z).

(** [{componentLoading.versions ? <ComponentSkeleton />
      : Object.keys(versionDistribution).length === 0 ? ...
      : <>{paginatedVersions.map(...)}<PaginationControls .../></>}] *)
Definition versionsPanel (st : DashboardState) : VersionsPanel :=
  if ComponentLoading.versions (componentLoading st) then VersionsSkeleton
  else if Z.of_nat (length (Object_keys (versionDistribution (activeNodes st)))) =? 0
       then NoVersionData
  else VersionList (paginatedVersions st) (versionPage st) (totalVersionPages st).

(** The queries of the loader. *)
Inductive Query :=
| MetricsQuery (limit : Z)
| NodesQuery.

(** The queries that an asynchronous function issues, in order, the store
    answering [metricsResult] and [nodesResult]. *)
Fixpoint issued (p : Async) (metricsResult : QueryResult MetricRow)
    (nodesResult : QueryResult NodeRecord) : list Query :=
  match p with
  | Done => []
  | Update _ k => issued k metricsResult nodesResult
  | AwaitMetrics limit k =>
      MetricsQuery limit :: issued (k metricsResult) metricsResult nodesResult
  | AwaitNodes k =>
      NodesQuery :: issued (k nodesResult) metricsResult nodesResult
  end.

(** Continue a suspended function with the answers of the store, up to the
    next [await]. *)
Definition resume (s : Suspended) (metricsResult : QueryResult MetricRow)
    (nodesResult : QueryResult NodeRecord) (st : DashboardState)
    : DashboardState * Suspended :=
  match s with
  | Finished => (st, Finished)
  | WaitingForMetrics _ k => advance (k metricsResult) st
  | WaitingForNodes k => advance (k nodesResult) st
  end.

(** ** More vocabulary *)

(** The number of rows that bear the version [v]. *)
Definition rowsWithVersion (v : string) (nodes : list NodeRecord) : Z :=
  Z.of_nat (length (List.filter (fun n => String.eqb (version n) v) nodes)).

(** The exact sum of the [new_records_count] column. *)
Definition sumNewRecords (metrics : list MetricRow) : Z :=
  foldr (fun day s => new_records_count day + s) 0 metrics.

(** The pages 1 to [n] of a sequence. *)
Definition pagesUpTo {A} (data : list A) (n : nat) : list (list A) :=
  map (fun p => getPaginatedData data (Z.of_nat p) ITEMS_PER_PAGE) (seq 1 n).

(** A failed query. *)
Definition failed {A} (message : string) : QueryResult A :=
  {| q_data := None; q_error := Some message |}.

(** Inputs of the examples. *)
Definition sevenItems : list Z := [1; 2; 3; 4; 5; 6; 7].

Definition threeRows : list NodeRecord :=
  [ node "A" "1.0" 4; node "A" "1.0" 6; node "B" "1.1" 2 ].

Definition twoDays : list MetricRow :=
  [ {| date := "2024-01-01"; new_records_count := 3 |};
    {| date := "2024-01-02"; new_records_count := 5 |} ].

(** * Properties *)

(** A comparison of the code whose outcome follows by linear arithmetic. *)
Ltac holds c :=
  replace c with true
    by (symmetry; first [apply Z.leb_le | apply Z.ltb_lt | apply Z.eqb_eq]; lia).
Ltac fails c :=
  replace c with false
    by (symmetry; first [apply Z.leb_gt | apply Z.ltb_ge | apply Z.eqb_neq]; lia).


(** ** Strings *)

Lemma startsWith_app (s t : string) :
  JsString.startsWith s t = true <-> exists post, s = (t ++ post)%string.
Proof.
  revert s. induction t as [|b t IH]; intros s; simpl.
  - split; [intros _; by exists s | done].
  - destruct s as [|a s]; simpl.
    + split; [done | intros [post H]; discriminate].
    + rewrite andb_true_iff, IH, Ascii.eqb_eq. split.
      * intros [-> [post ->]]. by exists post.
      * intros [post H]. injection H as -> ->. eauto.
Qed.

Lemma includes_Substring (s t : string) :
  JsString.includes s t = true <-> JsString.Substring t s.
Proof.
  unfold JsString.Substring. induction s as [|a s IH]; simpl.
  - rewrite orb_false_r, startsWith_app. split.
    + intros [post H]. by exists EmptyString, post.
    + intros [[|c pre] [post H]]; [by exists post | discriminate].
  - rewrite orb_true_iff, IH, startsWith_app. split.
    + intros [[post H] | (pre & post & H)].
      * by exists EmptyString, post.
      * exists (String a pre), post. simpl. by rewrite H.
    + intros [[|c pre] [post H]].
      * left. by exists post.
      * right. injection H as -> H. by exists pre, post.
Qed.

(** ** The search filter *)

Lemma searchFilter_cons (x : string) (ids : list string) (q : string) :
  searchFilter (x :: ids) q =
    if JsString.includes (JsString.toLowerCase x) (JsString.toLowerCase q)
    then x :: searchFilter ids q else searchFilter ids q.
Proof. reflexivity. Qed.

Lemma searchFilter_sublist (ids : list string) (q : string) :
  searchFilter ids q `sublist_of` ids.
Proof.
  induction ids as [|x ids IH]; [constructor|].
  rewrite searchFilter_cons. destruct (JsString.includes _ _); by constructor.
Qed.

Lemma searchFilter_Forall (ids : list string) (q : string) :
  Forall (Matches q) (searchFilter ids q).
Proof.
  induction ids as [|x ids IH]; [constructor|].
  rewrite searchFilter_cons.
  destruct (JsString.includes _ _) eqn:E; [|done].
  constructor; [|done]. by apply includes_Substring.
Qed.

Lemma searchFilter_greatest (ids kept : list string) (q : string) :
  kept `sublist_of` ids -> Forall (Matches q) kept ->
  kept `sublist_of` searchFilter ids q.
Proof.
  induction 1 as [|x kept ids _ IH|x kept ids _ IH]; intros HF.
  - constructor.
  - apply Forall_cons in HF as [Hx HF]. rewrite searchFilter_cons.
    apply includes_Substring in Hx. unfold Matches in *. rewrite Hx.
    constructor. by apply IH.
  - rewrite searchFilter_cons. destruct (JsString.includes _ _).
    + constructor. by apply IH.
    + by apply IH.
Qed.

(** C3.  For every list of peer ids and every query (in particular every
    non-empty one) the filter of the search effect returns the peer ids whose
    lower-cased text contains the lower-cased query, in the order of the
    input: the result is a subsequence of the input, all of its elements
    match, and every subsequence of the input whose elements all match is a
    subsequence of the result.  [filter(["Peer1","peer2"], "PEER1")] is
    [["Peer1"]]. *)
Theorem searchFilter_exactly_the_matches :
  forall (ids : list string) (query : string),
    searchFilter ids query `sublist_of` ids
    /\ Forall (Matches query) (searchFilter ids query)
    /\ (forall kept, kept `sublist_of` ids /\ Forall (Matches query) kept ->
                     kept `sublist_of` searchFilter ids query)
    /\ searchFilter ["Peer1"; "peer2"] "PEER1" = ["Peer1"].
Proof.
  intros ids query. split; [apply searchFilter_sublist|].
  split; [apply searchFilter_Forall|]. split; [|reflexivity].
  intros kept [Hs HF]. by apply searchFilter_greatest.
Qed.

(** ** Distinct peer ids *)

Lemma has_elem_of (s : list string) (x : string) :
  JsSet.has s x = true <-> x ∈ s.
Proof.
  unfold JsSet.has. rewrite existsb_exists. split.
  - intros (y & Hin & Heq). apply String.eqb_eq in Heq as ->.
    by apply list_elem_of_In.
  - intros Hin. exists x. split; [by apply list_elem_of_In | apply String.eqb_refl].
Qed.

Lemma from_snoc (xs : list string) (z : string) :
  JsSet.from (xs ++ [z]) = JsSet.add (JsSet.from xs) z.
Proof. unfold JsSet.from. by rewrite fold_left_app. Qed.

Lemma from_elem_of (xs : list string) (x : string) :
  x ∈ JsSet.from xs <-> x ∈ xs.
Proof.
  revert x. induction xs as [|z xs IH] using rev_ind; intros x; [done|].
  rewrite from_snoc. unfold JsSet.add.
  destruct (JsSet.has _ z) eqn:E.
  - apply has_elem_of in E. rewrite IH in E.
    rewrite IH, elem_of_app, list_elem_of_singleton.
    split; [by left | by intros [?| ->]].
  - rewrite !elem_of_app, IH. done.
Qed.

Lemma from_NoDup (xs : list string) : NoDup (JsSet.from xs).
Proof.
  induction xs as [|z xs IH] using rev_ind; [constructor|].
  rewrite from_snoc. unfold JsSet.add.
  destruct (JsSet.has _ z) eqn:E; [done|].
  apply NoDup_app. split; [done|]. split; [|apply NoDup_singleton].
  intros y Hy Hz. apply list_elem_of_singleton in Hz as ->.
  apply has_elem_of in Hy. congruence.
Qed.

Lemma firstIndexOf_app_l (x : string) (xs ys : list string) :
  x ∈ xs -> JsSet.firstIndexOf x (xs ++ ys) = JsSet.firstIndexOf x xs.
Proof.
  induction xs as [|y xs IH]; [by intros ?%elem_of_nil|].
  intros Hin. simpl. destruct (String.eqb x y) eqn:E; [done|].
  f_equal. apply IH. apply String.eqb_neq in E.
  by apply elem_of_cons in Hin as [->|Hin].
Qed.

Lemma firstIndexOf_lt (x : string) (xs : list string) :
  x ∈ xs -> (JsSet.firstIndexOf x xs < length xs)%nat.
Proof.
  induction xs as [|y xs IH]; [by intros ?%elem_of_nil|].
  intros Hin. simpl. destruct (String.eqb x y) eqn:E; [lia|].
  apply String.eqb_neq in E.
  assert (x ∈ xs) as Hxs by (by apply elem_of_cons in Hin as [->|Hin]).
  specialize (IH Hxs). lia.
Qed.

Lemma firstIndexOf_fresh (x : string) (xs ys : list string) :
  x ∉ xs -> JsSet.firstIndexOf x (xs ++ x :: ys) = length xs.
Proof.
  induction xs as [|y xs IH]; intros Hnot; simpl.
  - by rewrite String.eqb_refl.
  - apply not_elem_of_cons in Hnot as [Hne Hnot].
    destruct (String.eqb x y) eqn:E.
    + by apply String.eqb_eq in E.
    + f_equal. by apply IH.
Qed.

Lemma from_first_seen_order (xs : list string) (i j : nat) (x y : string) :
  JsSet.from xs !! i = Some x -> JsSet.from xs !! j = Some y -> (i < j)%nat ->
  (JsSet.firstIndexOf x xs < JsSet.firstIndexOf y xs)%nat.
Proof.
  revert i j x y. induction xs as [|z xs IH] using rev_ind; intros i j x y.
  - unfold JsSet.from. simpl. by rewrite lookup_nil.
  - rewrite from_snoc. unfold JsSet.add.
    destruct (JsSet.has _ z) eqn:E.
    + intros Hi Hj Hlt.
      assert (x ∈ xs) by (apply from_elem_of; by eapply list_elem_of_lookup_2).
      assert (y ∈ xs) by (apply from_elem_of; by eapply list_elem_of_lookup_2).
      rewrite !firstIndexOf_app_l by done. by eapply IH.
    + intros Hi Hj Hlt.
      assert (z ∉ xs) as Hz.
      { rewrite <- from_elem_of, <- has_elem_of. congruence. }
      assert (i < length (JsSet.from xs))%nat as Hilen.
      { apply lookup_lt_Some in Hi, Hj. rewrite length_app in Hj. simpl in Hj. lia. }
      rewrite lookup_app_l in Hi by done.
      assert (x ∈ xs) by (apply from_elem_of; by eapply list_elem_of_lookup_2).
      rewrite (firstIndexOf_app_l x) by done.
      destruct (decide (j < length (JsSet.from xs))%nat) as [Hjlen|Hjlen].
      * rewrite lookup_app_l in Hj by done.
        assert (y ∈ xs) by (apply from_elem_of; by eapply list_elem_of_lookup_2).
        rewrite (firstIndexOf_app_l y) by done. by eapply IH.
      * rewrite lookup_app_r in Hj by lia.
        apply list_lookup_singleton_Some in Hj as [_ ->].
        rewrite firstIndexOf_fresh by done. by apply firstIndexOf_lt.
Qed.

(** C5.  For every nodes collection, [activePeerIds] (the spec's
    [distinctPeerIds]) has no duplicate entry, holds exactly the peer ids of
    the collection, and lists them in the order of their first occurrence in
    the fetched sequence: an id that stands before another in the result
    occurs first at an earlier row. *)
Theorem activePeerIds_distinct_first_seen :
  forall nodes : list NodeRecord,
    NoDup (activePeerIds nodes)
    /\ (forall x, x ∈ activePeerIds nodes <-> x ∈ map peer_id nodes)
    /\ (forall i j x y,
          activePeerIds nodes !! i = Some x /\
          activePeerIds nodes !! j = Some y /\ (i < j)%nat ->
          (JsSet.firstIndexOf x (map peer_id nodes)
           < JsSet.firstIndexOf y (map peer_id nodes))%nat).
Proof.
  intros nodes. unfold activePeerIds. split; [apply from_NoDup|].
  split; [intros x; apply from_elem_of|].
  intros i j x y (Hi & Hj & Hlt). by eapply from_first_seen_order.
Qed.


(** ** The loader *)

(** C9.  On every invocation of [fetchData], whatever state the previous
    cycle left, the function reaches its first query (the metrics query)
    having set [error] to [null] and the four loading flags (metrics, nodes,
    versions, peers) to [true]; [loading] is [true] as well. *)
Theorem fetchData_resets_before_first_query :
  forall (tf : string) (st : DashboardState),
    exists st' k,
      advance (fetchData tf) st = (st', WaitingForMetrics (metricsLimit tf) k)
      /\ error st' = None
      /\ ComponentLoading.metrics (componentLoading st') = true
      /\ ComponentLoading.nodes (componentLoading st') = true
      /\ ComponentLoading.versions (componentLoading st') = true
      /\ ComponentLoading.peers (componentLoading st') = true
      /\ loading st' = true.
Proof.
  intros tf st. eexists _, _. split; [reflexivity|].
  simpl. repeat split.
Qed.

(** The loader's part of the empty-result scenario: when both queries
    succeed without rows, the cycle ends with the one error message
    "No data available" and with [loading] off. *)
Lemma fetchData_empty_sets_error
    (tf : string) (st : DashboardState)
    (metricsResult : QueryResult MetricRow) (nodesResult : QueryResult NodeRecord) :
  q_error metricsResult = None -> q_error nodesResult = None ->
  noLength (q_data metricsResult) = true -> noLength (q_data nodesResult) = true ->
  error (run (fetchData tf) metricsResult nodesResult st) = Some "No data available"
  /\ loading (run (fetchData tf) metricsResult nodesResult st) = false.
Proof.
  intros Hm Hn Hlm Hln. simpl. rewrite Hm. simpl. rewrite Hn. simpl.
  rewrite Hlm, Hln. simpl. done.
Qed.

(** Whenever the error state holds a non-empty message, evaluating the body
    of [<main>] throws: [ErrorState] is bound nowhere in the module. *)
Lemma mainView_error_throws (st : DashboardState) (message : string) :
  error st = Some message -> JsString.truthy message = true ->
  mainView st = Throw "ReferenceError: ErrorState is not defined".
Proof. intros He Ht. unfold mainView. by rewrite He, Ht. Qed.

(** C8, evaluated where it fails.  Both queries succeed with empty
    collections: the loader leaves the message "No data available" in the
    error state, and rendering the error branch throws a ReferenceError
    instead of producing the error view. *)
Theorem empty_collections_render_throws :
  let st := run (fetchData "7d") (rows []) (rows []) initialState in
  error st = Some "No data available"
  /\ loading st = false
  /\ mainView st = Throw "ReferenceError: ErrorState is not defined".
Proof. repeat split. Qed.


(** ** The search box *)

Lemma trimStart_blank (s : string) :
  JsString.blank s = true -> JsString.trimStart s = EmptyString.
Proof.
  induction s as [|c s IH]; [done|]. simpl.
  intros [Hc Hs]%andb_true_iff. rewrite Hc. by apply IH.
Qed.

Lemma trimStart_not_blank (s : string) :
  JsString.blank s = false ->
  exists c rest, JsString.trimStart s = String c rest
                 /\ JsString.isWhiteSpace c = false.
Proof.
  induction s as [|c s IH]; [done|]. simpl.
  destruct (JsString.isWhiteSpace c) eqn:Hc; simpl; [apply IH|].
  intros _. by exists c, s.
Qed.

Lemma trimStart_keeps_last (s : string) (c : ascii) :
  JsString.isWhiteSpace c = false ->
  JsString.truthy (JsString.trimStart (s ++ String c EmptyString)%string) = true.
Proof.
  intros Hc. induction s as [|a s IH]; simpl.
  - by rewrite Hc.
  - by destruct (JsString.isWhiteSpace a).
Qed.

Lemma truthy_rev (s : string) :
  JsString.truthy (JsString.rev s) = JsString.truthy s.
Proof.
  destruct s as [|a s]; [done|]. simpl. by destruct (JsString.rev s).
Qed.

(** [trim] leaves the empty string exactly for the queries that are empty
    or made of white space only. *)
Lemma truthy_trim (q : string) :
  JsString.truthy (JsString.trim q) = negb (JsString.blank q).
Proof.
  unfold JsString.trim, JsString.trimEnd. rewrite truthy_rev.
  destruct (JsString.blank q) eqn:Hb.
  - by rewrite (trimStart_blank q Hb).
  - destruct (trimStart_not_blank q Hb) as (c & rest & -> & Hc).
    simpl. by apply trimStart_keeps_last.
Qed.

Lemma onSearchChange_changed (q : string) (st : DashboardState) :
  q <> searchQuery st ->
  onSearchChange q st = searchEffect (setSearchQuery st q).
Proof.
  intros Hne. unfold onSearchChange.
  by apply String.eqb_neq in Hne as ->.
Qed.

(** C4, as the code has it.  For every change of the search query text the
    version list's page is left unchanged; the peer list's page is reset to 1
    when the new text is not empty or white space only, and is left as it
    was when the new text is empty or white space only. *)
Theorem onSearchChange_pages :
  forall (st : DashboardState) (q : string),
    q <> searchQuery st ->
    versionPage (onSearchChange q st) = versionPage st
    /\ (JsString.blank q = false -> peerPage (onSearchChange q st) = 1)
    /\ (JsString.blank q = true -> peerPage (onSearchChange q st) = peerPage st).
Proof.
  intros st q Hne. rewrite onSearchChange_changed by done.
  unfold searchEffect. simpl. rewrite truthy_trim.
  destruct (JsString.blank q); simpl; by repeat split.
Qed.

Lemma onSearchChange_pages_witness :
  "a" <> searchQuery initialState
  /\ versionPage (onSearchChange "a" initialState) = versionPage initialState
  /\ (JsString.blank "a" = false -> peerPage (onSearchChange "a" initialState) = 1)
  /\ (JsString.blank "a" = true ->
      peerPage (onSearchChange "a" initialState) = peerPage initialState).
Proof.
  split; [discriminate|]. apply (onSearchChange_pages initialState "a").
  discriminate.
Defined.

(** C4 as stated fails: with the query "p" and the peer list on page 2,
    clearing the search box changes the query text and leaves the peer list
    on page 2. *)
Lemma clearing_query_keeps_peer_page :
  searchQuery searchedThenNextPage = "p"
  /\ peerPage searchedThenNextPage = 2
  /\ searchQuery (onSearchChange "" searchedThenNextPage) = ""
  /\ peerPage (onSearchChange "" searchedThenNextPage) = 2.
Proof. vm_compute. repeat split. Qed.

(** The empty query: the full list is displayed and the "no matches" state
    is not. *)
Lemma empty_query_displays_all (st : DashboardState) :
  searchQuery st = "" ->
  displayPeerIds st = activePeerIds (activeNodes st)
  /\ peersPanel st <> NoMatchingPeers.
Proof.
  intros Hq. unfold displayPeerIds, peersPanel. rewrite Hq. simpl.
  split; [done|]. by repeat case_match.
Qed.

(** A query of white space only that is not empty: the effect stores no
    results, the render reads them because the untrimmed query is truthy,
    and the list that is displayed is empty. *)
Lemma whitespace_query_displays_nothing (st : DashboardState) (q : string) :
  q <> searchQuery st -> JsString.blank q = true -> q <> "" ->
  displayPeerIds (onSearchChange q st) = []
  /\ (ComponentLoading.peers (componentLoading st) = false ->
      activePeerIds (activeNodes st) <> [] ->
      isSearching st = false ->
      peersPanel (onSearchChange q st) = NoMatchingPeers).
Proof.
  intros Hne Hb Hq. rewrite onSearchChange_changed by done.
  unfold searchEffect. simpl. rewrite truthy_trim, Hb. simpl.
  unfold displayPeerIds, peersPanel. simpl.
  destruct q as [|c q]; [done|]. simpl. split; [done|].
  intros -> Hids ->. destruct (activePeerIds (activeNodes st)); done.
Qed.

(** C2, evaluated where it fails.  One peer is loaded and the user types a
    single space: the displayed list is empty, not the full list, and the
    card shows "No matching peer IDs found". *)
Theorem whitespace_query_shows_no_matches :
  let st := onSearchChange " " (loadedWith [node "A" "1.0" 4]) in
  activePeerIds (activeNodes st) = ["A"]
  /\ displayPeerIds st = []
  /\ peersPanel st = NoMatchingPeers.
Proof. vm_compute. repeat split. Qed.

(** ** Version distribution *)

Lemma getOwn_Counting (o : JsObject.t) (k : string) (v : value) :
  Counting o -> JsObject.getOwn o k = Some v -> exists n, v = VInt n /\ 0 < n.
Proof.
  induction 1 as [|[k' v'] o Hkv _ IH]; simpl; [done|].
  destruct (String.eqb k k'); [|done].
  intros [= <-]. exact Hkv.
Qed.

Lemma setOwn_Counting (o : JsObject.t) (k : string) (n : Z) :
  Counting o -> 0 < n -> Counting (JsObject.setOwn o k (VInt n)).
Proof.
  intros Ho Hn. induction Ho as [|[k' v'] o Hkv Ho IH]; simpl.
  - repeat constructor. by exists n.
  - destruct (String.eqb k k'); constructor; try done. by exists n.
Qed.

Lemma sumOfCounts_setOwn_new (o : JsObject.t) (k : string) (s : Z) :
  JsObject.getOwn o k = None -> JsObject.sumOfCounts o = Some s ->
  JsObject.sumOfCounts (JsObject.setOwn o k (VInt 1)) = Some (s + 1).
Proof.
  revert s. induction o as [|[k' v'] o IH]; intros s; simpl.
  - intros _ [= <-]. done.
  - destruct (String.eqb k k'); [done|].
    destruct v'; try done. intros Hk.
    destruct (JsObject.sumOfCounts o) as [s'|]; [|done].
    intros [= <-]. simpl. rewrite (IH s') by done. f_equal. lia.
Qed.

Lemma sumOfCounts_setOwn_bump (o : JsObject.t) (k : string) (n s : Z) :
  JsObject.getOwn o k = Some (VInt n) -> JsObject.sumOfCounts o = Some s ->
  JsObject.sumOfCounts (JsObject.setOwn o k (VInt (n + 1))) = Some (s + 1).
Proof.
  revert s. induction o as [|[k' v'] o IH]; intros s; simpl; [done|].
  destruct (String.eqb k k').
  - intros [= ->]. simpl. destruct (JsObject.sumOfCounts o) as [s'|]; [|done].
    intros [= <-]. f_equal. lia.
  - destruct v'; try done. intros Hk.
    destruct (JsObject.sumOfCounts o) as [s'|]; [|done].
    intros [= <-]. simpl. rewrite (IH s') by done. f_equal. lia.
Qed.

(** One step of the reducer on a version string that is no property name of
    [Object.prototype]: the object keeps counting and its total grows by
    one. *)
Lemma count_step (o : JsObject.t) (k : string) (s : Z) :
  JsObject.inherited k = false -> Counting o ->
  JsObject.sumOfCounts o = Some s ->
  let o' := JsObject.set o k
              (JsObject.plusOne (JsObject.orZero (JsObject.get o k))) in
  Counting o' /\ JsObject.sumOfCounts o' = Some (s + 1).
Proof.
  intros Hk Ho Hs. unfold JsObject.inherited in Hk.
  apply orb_false_iff in Hk as [Hproto Hmeth].
  unfold JsObject.set, JsObject.get. rewrite Hproto, Hmeth.
  destruct (JsObject.getOwn o k) as [v|] eqn:Hget.
  - destruct (getOwn_Counting o k v Ho Hget) as (n & -> & Hn).
    unfold JsObject.orZero. simpl.
    fails (n =? 0). simpl.
    split; [apply setOwn_Counting; [done | lia]|].
    by apply sumOfCounts_setOwn_bump.
  - simpl. split; [by apply setOwn_Counting|].
    by apply sumOfCounts_setOwn_new.
Qed.

Lemma versionDistribution_fold (nodes : list NodeRecord) (o : JsObject.t) (s : Z) :
  Forall (fun n => JsObject.inherited (version n) = false) nodes ->
  Counting o -> JsObject.sumOfCounts o = Some s ->
  JsObject.sumOfCounts
    (fold_left
       (fun acc n =>
          JsObject.set acc (version n)
            (JsObject.plusOne (JsObject.orZero (JsObject.get acc (version n)))))
       nodes o)
  = Some (s + Z.of_nat (length nodes)).
Proof.
  intros Hnodes. revert o s.
  induction Hnodes as [|n nodes Hn _ IH]; intros o s Ho Hs; simpl.
  - by rewrite Z.add_0_r.
  - destruct (count_step o (version n) s Hn Ho Hs) as [Ho' Hs'].
    rewrite (IH _ _ Ho' Hs'). f_equal. lia.
Qed.

(** The invariant behind the proportional bars: when no version string is
    the name of a property that [{}] inherits from [Object.prototype], the
    counts of [versionDistribution] add up to the number of rows. *)
Lemma versionDistribution_sum (nodes : list NodeRecord) :
  Forall (fun n => JsObject.inherited (version n) = false) nodes ->
  JsObject.sumOfCounts (versionDistribution nodes) = Some (currentActiveNodes nodes).
Proof.
  intros Hnodes. unfold versionDistribution, currentActiveNodes.
  by rewrite (versionDistribution_fold nodes JsObject.empty 0 Hnodes);
    [| constructor |].
Qed.

(** C10, evaluated where it fails.  A row whose version string is
    "__proto__" is counted under no version: the distribution stays empty
    and its counts add up to 0 while there is one active node.  A row whose
    version string is "constructor" leaves a string, not a count. *)
Theorem versionDistribution_loses_inherited_names :
  versionDistribution [node "A" "__proto__" 4] = JsObject.empty
  /\ JsObject.sumOfCounts (versionDistribution [node "A" "__proto__" 4]) = Some 0
  /\ currentActiveNodes [node "A" "__proto__" 4] = 1
  /\ versionDistribution [node "A" "constructor" 4]
     = [("constructor", VString "function Object() { [native code] }1")]
  /\ JsObject.sumOfCounts (versionDistribution [node "A" "constructor" 4]) = None.
Proof. repeat split. Qed.


(** ** Double-precision division *)

Lemma digits2_pos_bounds (p : positive) :
  2 ^ (Zpos (digits2_pos p) - 1) <= Zpos p < 2 ^ Zpos (digits2_pos p).
Proof.
  induction p as [p IH|p IH|]; simpl digits2_pos.
  - rewrite Pos2Z.inj_succ, Z.pow_succ_r by lia.
    replace (Z.succ (Zpos (digits2_pos p)) - 1) with (Z.succ (Zpos (digits2_pos p) - 1)) by lia.
    rewrite Z.pow_succ_r by lia. lia.
  - rewrite Pos2Z.inj_succ, Z.pow_succ_r by lia.
    replace (Z.succ (Zpos (digits2_pos p)) - 1) with (Z.succ (Zpos (digits2_pos p) - 1)) by lia.
    rewrite Z.pow_succ_r by lia. lia.
  - simpl. lia.
Qed.

Lemma digits2_pos_unique (p : positive) (d : Z) :
  2 ^ (d - 1) <= Zpos p < 2 ^ d -> Zpos (digits2_pos p) = d.
Proof.
  intros [Hlo Hhi]. pose proof (digits2_pos_bounds p) as [Hlo' Hhi'].
  assert (0 < d) as Hd.
  { destruct (Z.lt_ge_cases 0 d) as [|Hle]; [done|].
    destruct (Z.eq_dec d 0) as [->|Hne]; [simpl in Hhi; lia|].
    rewrite Z.pow_neg_r in Hhi by lia. lia. }
  assert (Zpos (digits2_pos p) - 1 < d).
  { apply (Z.pow_lt_mono_r_iff 2); lia. }
  assert (d - 1 < Zpos (digits2_pos p)).
  { apply (Z.pow_lt_mono_r_iff 2); lia. }
  lia.
Qed.

Lemma iter_xO (p n : positive) :
  Zpos (Pos.iter xO p n) = Zpos p * 2 ^ Zpos n.
Proof.
  induction n as [|n IH] using Pos.peano_ind.
  - simpl. lia.
  - rewrite Pos.iter_succ, Pos2Z.inj_succ, Z.pow_succ_r by lia.
    rewrite Pos2Z.inj_xO, IH. lia.
Qed.

Lemma Zdigits2_unique (m d : Z) :
  0 < m -> 2 ^ (d - 1) <= m < 2 ^ d -> Zdigits2 m = d.
Proof.
  intros Hm Hd. destruct m as [|p|p]; try lia. simpl.
  by apply digits2_pos_unique.
Qed.

Lemma shr_fexp_53 (m e : Z) (l : location) :
  2 ^ 52 <= m < 2 ^ 53 -> -1074 <= e ->
  shr_fexp 53 1024 m e l = (shr_record_of_loc m l, e).
Proof.
  intros Hm He. unfold shr_fexp.
  rewrite (Zdigits2_unique m 53) by lia.
  unfold fexp, emin.
  replace (Z.max (53 + e - 53) (3 - 1024 - 53) - e) with 0 by lia.
  reflexivity.
Qed.

Lemma shr_fexp_54 (m e : Z) (l : location) :
  2 ^ 53 <= m < 2 ^ 54 -> -1075 <= e ->
  shr_fexp 53 1024 m e l = (shr_1 (shr_record_of_loc m l), e + 1).
Proof.
  intros Hm He. unfold shr_fexp.
  rewrite (Zdigits2_unique m 54) by lia.
  unfold fexp, emin.
  replace (Z.max (54 + e - 53) (3 - 1024 - 53) - e) with 1 by lia.
  reflexivity.
Qed.

Lemma loc_of_shr_record_of_loc (m : Z) (l : location) :
  loc_of_shr_record (shr_record_of_loc m l) = l.
Proof. by destruct l as [|[]]. Qed.

Lemma shr_m_of_loc (m : Z) (l : location) :
  shr_m (shr_record_of_loc m l) = m.
Proof. by destruct l as [|[]]. Qed.

(** Rounding a 53-bit mantissa that does not carry into a 54th bit. *)
Lemma binary_round_aux_53 (q e : Z) (l : location) :
  2 ^ 52 <= q < 2 ^ 53 -> -1074 <= e <= 971 ->
  round_nearest_even q l < 2 ^ 53 ->
  2 ^ 52 <= round_nearest_even q l ->
  binary_round_aux 53 1024 false q e l
  = S754_finite false (Z.to_pos (round_nearest_even q l)) e.
Proof.
  intros Hq He HM HM'. unfold binary_round_aux.
  rewrite shr_fexp_53 by lia.
  rewrite loc_of_shr_record_of_loc, shr_m_of_loc.
  rewrite shr_fexp_53 by lia.
  rewrite shr_m_of_loc.
  destruct (round_nearest_even q l) as [|M|M]; try lia.
  holds (e <=? 1024 - 53).
  reflexivity.
Qed.

Lemma binary_round_aux_54 (q e : Z) (l : location) :
  2 ^ 53 <= q < 2 ^ 54 -> -1075 <= e <= 970 ->
  let mrs := shr_1 (shr_record_of_loc q l) in
  let M := round_nearest_even (shr_m mrs) (loc_of_shr_record mrs) in
  2 ^ 52 <= M < 2 ^ 53 ->
  binary_round_aux 53 1024 false q e l = S754_finite false (Z.to_pos M) (e + 1).
Proof.
  intros Hq He mrs M HM. unfold binary_round_aux.
  rewrite shr_fexp_54 by lia. fold mrs. fold M.
  rewrite shr_fexp_53 by lia.
  rewrite shr_m_of_loc.
  destruct M as [|M'|M']; try lia.
  holds (e + 1 <=? 1024 - 53).
  reflexivity.
Qed.

Lemma new_location_spec (D r : Z) :
  0 < D -> 0 <= r < D ->
  new_location D r = if r =? 0 then loc_Exact else loc_Inexact (2 * r ?= D).
Proof.
  intros HD Hr. unfold new_location, new_location_even, new_location_odd.
  destruct (Z.even D) eqn:Hev; [done|].
  destruct (r =? 0); [done|]. f_equal.
  assert (2 * r <> D) as Hne.
  { intros <-. by rewrite Z.even_mul in Hev. }
  destruct (Z.compare_spec (2 * r + 1) D), (Z.compare_spec (2 * r) D);
    try done; lia.
Qed.

(** Rounding the quotient [q + r/D] to nearest, ties to even. *)
Lemma round_nearest_even_new_location (q r D : Z) :
  0 < D -> 0 <= r < D ->
  let M := round_nearest_even q (new_location D r) in
  (M = q \/ (M = q + 1 /\ D <= 2 * r))
  /\ 2 * Z.abs (M * D - (q * D + r)) <= D.
Proof.
  intros HD Hr. rewrite new_location_spec by done.
  destruct (Z.eqb_spec r 0) as [->|Hr0]; simpl.
  - split; [by left | lia].
  - destruct (Z.compare_spec (2 * r) D); simpl.
    + destruct (Z.even q); split; try (by left); try (right; lia); lia.
    + split; [by left | lia].
    + split; [right; lia | lia].
Qed.

Lemma shr_1_of_loc (q : Z) (l : location) :
  0 < q ->
  shr_1 (shr_record_of_loc q l)
  = {| shr_m := q / 2; shr_r := Z.odd q; shr_s := inexact l |}.
Proof.
  intros Hq. destruct q as [|p|p]; try lia.
  assert (Z.pos p / 2 = match p with xH => 0 | xO p' | xI p' => Z.pos p' end) as ->.
  { destruct p as [p|p|]; [| |reflexivity].
    - symmetry. apply (Z.div_unique _ 2 _ 1); lia.
    - symmetry. apply (Z.div_unique _ 2 _ 0); lia. }
  destruct l as [|[]], p as [p|p|]; reflexivity.
Qed.

(** The same after one right shift of the quotient: [q + r/D] is rounded in
    units of 2. *)
Lemma round_nearest_even_shr_1 (q r D : Z) :
  0 < q -> 0 < D -> 0 <= r < D ->
  let mrs := shr_1 (shr_record_of_loc q (new_location D r)) in
  let M := round_nearest_even (shr_m mrs) (loc_of_shr_record mrs) in
  (M = q / 2 \/ (M = q / 2 + 1 /\ Z.odd q = true))
  /\ 2 * Z.abs (M * (2 * D) - (q * D + r)) <= 2 * D.
Proof.
  intros Hq HD Hr. rewrite shr_1_of_loc by done.
  rewrite new_location_spec by done.
  pose proof (Z.div_mod q 2 ltac:(lia)) as Hdiv.
  rewrite Zmod_odd in Hdiv.
  set (h := q / 2) in *. clearbody h.
  destruct (Z.odd q) eqn:Hodd; destruct (Z.eqb_spec r 0) as [->|Hr0];
    cbn [inexact shr_m loc_of_shr_record round_nearest_even].
  - destruct (Z.even h); (split; [first [by left | by right] | lia]).
  - split; [by right | lia].
  - split; [by left | lia].
  - split; [by left | lia].
Qed.

(** Division of two doubles with full 53-bit mantissas and small exponents:
    the quotient is again such a double, within half a unit in the last
    place of the exact quotient. *)
Lemma SFdiv_canonical (A B : positive) (e1 e2 : Z) :
  2 ^ 52 <= Zpos A < 2 ^ 53 -> 2 ^ 52 <= Zpos B < 2 ^ 53 ->
  -52 <= e1 <= 0 -> -52 <= e2 <= 0 ->
  exists (M : positive) (sh : Z),
    (sh = 0 \/ sh = 1)
    /\ SFdiv 53 1024 (S754_finite false A e1) (S754_finite false B e2)
       = S754_finite false M (e1 - e2 - 53 + sh)
    /\ 2 ^ 52 <= Zpos M < 2 ^ 53
    /\ 2 * Z.abs (Zpos M * (2 ^ sh * Zpos B) - Zpos A * 2 ^ 53) <= 2 ^ sh * Zpos B.
Proof.
  intros HA HB He1 He2.
  unfold SFdiv, SFdiv_core_binary. cbn [xorb].
  rewrite (Zdigits2_unique (Zpos A) 53), (Zdigits2_unique (Zpos B) 53) by lia.
  unfold fexp, emin.
  replace (Z.min (Z.max (53 + e1 - (53 + e2) - 53) (3 - 1024 - 53)) (e1 - e2))
    with (e1 - e2 - 53) by lia.
  replace (e1 - e2 - (e1 - e2 - 53)) with 53 by lia.
  rewrite Z.shiftl_mul_pow2 by lia.
  pose proof (Z_div_mod (Zpos A * 2 ^ 53) (Zpos B) ltac:(lia)) as Hdm.
  destruct (Z.div_eucl (Zpos A * 2 ^ 53) (Zpos B)) as [q r].
  destruct Hdm as [HN Hr].
  assert (2 ^ 52 <= q < 2 ^ 54) as Hq.
  { split.
    - destruct (Z.lt_ge_cases q (2 ^ 52)) as [Hlt|]; [|done].
      assert (Zpos B * q <= Zpos B * (2 ^ 52 - 1)) by (apply Z.mul_le_mono_nonneg_l; lia).
      lia.
    - destruct (Z.lt_ge_cases q (2 ^ 54)) as [|Hge]; [done|].
      assert (Zpos B * 2 ^ 54 <= Zpos B * q) by (apply Z.mul_le_mono_nonneg_l; lia).
      lia. }
  destruct (Z.lt_ge_cases q (2 ^ 53)) as [Hsmall|Hbig].
  - pose proof (round_nearest_even_new_location q r (Zpos B) ltac:(lia) Hr)
      as [HM Hacc].
    set (M := round_nearest_even q (new_location (Zpos B) r)) in *.
    assert (2 ^ 52 <= M < 2 ^ 53) as HMb.
    { destruct HM as [->|[-> Hup]]; [lia|].
      split; [lia|].
      destruct (Z.eq_dec q (2 ^ 53 - 1)) as [->|]; [|lia]. lia. }
    exists (Z.to_pos M), 0. split; [by left|].
    split.
    { rewrite binary_round_aux_53 by (fold M; lia).
      fold M. f_equal; lia. }
    rewrite Z2Pos.id by lia. split; [done|].
    rewrite HN. rewrite Z.pow_0_r, !Z.mul_1_l.
    replace (Zpos B * q + r) with (q * Zpos B + r) by lia. done.
  - pose proof (round_nearest_even_shr_1 q r (Zpos B) ltac:(lia) ltac:(lia) Hr)
      as [HM Hacc].
    set (mrs := shr_1 (shr_record_of_loc q (new_location (Zpos B) r))) in *.
    set (M := round_nearest_even (shr_m mrs) (loc_of_shr_record mrs)) in *.
    pose proof (Z.div_mod q 2 ltac:(lia)) as Hdiv.
    rewrite Zmod_odd in Hdiv.
    assert (2 ^ 52 <= M < 2 ^ 53) as HMb.
    { destruct HM as [->|[-> Hodd]]; [destruct (Z.odd q); lia|].
      rewrite Hodd in Hdiv. split; [lia|].
      destruct (Z.eq_dec (q / 2) (2 ^ 53 - 1)) as [Heq|]; [|lia].
      rewrite Heq in Hdiv. subst q. lia. }
    exists (Z.to_pos M), 1. split; [by right|].
    split.
    { rewrite binary_round_aux_54 by (fold mrs; fold M; lia).
      fold mrs. fold M. f_equal; lia. }
    rewrite Z2Pos.id by lia. split; [done|].
    rewrite HN. rewrite Z.pow_1_r.
    replace (Zpos B * q + r) with (q * Zpos B + r) by lia. done.
Qed.

(** A positive integer below [2^53] is held exactly, with a full mantissa. *)
Lemma ofInt_canonical (z : Z) :
  0 < z < 2 ^ 53 ->
  exists (m : positive) (k : Z),
    JsNumber.ofInt z = S754_finite false m (- k)
    /\ 0 <= k <= 52
    /\ Zpos m = z * 2 ^ k
    /\ 2 ^ 52 <= Zpos m < 2 ^ 53.
Proof.
  intros Hz. destruct z as [|p|p]; try lia.
  pose proof (digits2_pos_bounds p) as [Hlo Hhi].
  set (d := Zpos (digits2_pos p)) in *.
  assert (1 <= d <= 53) as Hd.
  { split; [subst d; lia|].
    assert (d - 1 < 53) by (apply (Z.pow_lt_mono_r_iff 2); lia). lia. }
  unfold JsNumber.ofInt, binary_normalize, binary_round, shl_align.
  unfold JsNumber.prec, JsNumber.emax, fexp, emin. fold d.
  replace (Z.max (d + 0 - 53) (3 - 1024 - 53) - 0) with (d - 53) by lia.
  replace (Z.max (d + 0 - 53) (3 - 1024 - 53)) with (d - 53) by lia.
  destruct (d - 53) as [|s|s] eqn:Hs; try lia.
  - exists p, 0. assert (d = 53) as Hd53 by lia. rewrite Hd53 in *.
    split; [|split; [lia|split; [lia|lia]]].
    rewrite binary_round_aux_53; simpl round_nearest_even; try lia.
    reflexivity.
  - exists (Pos.iter xO p s), (Zpos s).
    assert (Zpos (Pos.iter xO p s) = Zpos p * 2 ^ Zpos s) as Hm by apply iter_xO.
    assert (2 ^ 52 <= Zpos p * 2 ^ Zpos s < 2 ^ 53) as Hb.
    { assert (2 ^ 52 = 2 ^ (d - 1) * 2 ^ Zpos s) as ->
        by (rewrite <- Z.pow_add_r by lia; f_equal; lia).
      assert (2 ^ 53 = 2 ^ d * 2 ^ Zpos s) as ->
        by (rewrite <- Z.pow_add_r by lia; f_equal; lia).
      assert (0 < 2 ^ Zpos s) by (apply Z.pow_pos_nonneg; lia).
      split; [apply Z.mul_le_mono_nonneg_r; lia | apply Z.mul_lt_mono_pos_r; lia]. }
    split; [|split; [lia|split; [done|lia]]].
    rewrite binary_round_aux_53; simpl round_nearest_even; try lia.
    reflexivity.
Qed.

(** [a / b] for two positive integers below [2^53]: a double [m * 2^(-E)]
    with a full mantissa, within half a unit in the last place of the exact
    quotient. *)
Lemma div_accurate (a b : Z) :
  0 < a < 2 ^ 53 -> 0 < b < 2 ^ 53 ->
  exists (m : positive) (E : Z),
    JsNumber.div a b = S754_finite false m (- E)
    /\ 0 <= E
    /\ 2 ^ 52 <= Zpos m < 2 ^ 53
    /\ 2 * Z.abs (Zpos m * b - a * 2 ^ E) <= b.
Proof.
  intros Ha Hb.
  destruct (ofInt_canonical a Ha) as (A & ka & HofA & Hka & HA & HAb).
  destruct (ofInt_canonical b Hb) as (B & kb & HofB & Hkb & HB & HBb).
  destruct (SFdiv_canonical A B (- ka) (- kb) HAb HBb ltac:(lia) ltac:(lia))
    as (M & sh & Hsh & Hdiv & HMb & Hacc).
  exists M, (53 + ka - kb - sh).
  split.
  { unfold JsNumber.div, JsNumber.prec, JsNumber.emax. rewrite HofA, HofB, Hdiv.
    f_equal. lia. }
  split; [lia|]. split; [done|].
  rewrite HA, HB in Hacc.
  set (E := 53 + ka - kb - sh).
  assert (a * 2 ^ ka * 2 ^ 53 = a * 2 ^ E * 2 ^ (sh + kb)) as HN.
  { rewrite <- !Z.mul_assoc, <- !Z.pow_add_r by lia. do 2 f_equal. lia. }
  assert (Zpos M * (2 ^ sh * (b * 2 ^ kb)) = Zpos M * b * 2 ^ (sh + kb)) as HL.
  { rewrite Z.pow_add_r by lia. ring. }
  assert (2 ^ sh * (b * 2 ^ kb) = b * 2 ^ (sh + kb)) as HR.
  { rewrite Z.pow_add_r by lia. ring. }
  rewrite HN, HL, HR in Hacc.
  assert (0 < 2 ^ (sh + kb)) as Hpos by (apply Z.pow_pos_nonneg; lia).
  rewrite <- Z.mul_sub_distr_r, Z.abs_mul, (Z.abs_eq (2 ^ (sh + kb))) in Hacc by lia.
  rewrite Z.mul_assoc in Hacc.
  by apply Z.mul_le_mono_pos_r in Hacc.
Qed.

Lemma div_zero (b : Z) :
  0 < b < 2 ^ 53 -> JsNumber.div 0 b = S754_zero false.
Proof.
  intros Hb. destruct (ofInt_canonical b Hb) as (B & kb & HofB & _).
  unfold JsNumber.div. rewrite HofB. reflexivity.
Qed.

(** The page count is the least number of pages of five that hold [total]
    items. *)
Lemma getPageCount_spec (total : Z) :
  0 <= total < 2 ^ 53 ->
  exists pages : Z,
    getPageCount total ITEMS_PER_PAGE = Some pages
    /\ 5 * (pages - 1) < total <= 5 * pages.
Proof.
  intros Ht. unfold getPageCount, ITEMS_PER_PAGE.
  destruct (Z.eq_dec total 0) as [->|Hne].
  { exists 0. split; [reflexivity | lia]. }
  destruct (div_accurate total 5 ltac:(lia) ltac:(lia)) as (m & E & -> & HE & Hm & Hacc).
  assert (0 < 2 ^ E) as HX by (apply Z.pow_pos_nonneg; lia).
  assert (2 <= E) as HE2.
  { destruct (Z.lt_ge_cases E 2) as [Hlt|]; [|done].
    assert (E = 0 \/ E = 1) as [-> | ->] by lia; simpl in Hacc; lia. }
  assert (4 <= 2 ^ E) as HX4.
  { change 4 with (2 ^ 2). apply Z.pow_le_mono_r; lia. }
  unfold JsNumber.Math_ceil.
  fails (0 <=? - E).
  rewrite Z.opp_involutive.
  set (X := 2 ^ E) in *. clearbody X.
  eexists. split; [reflexivity|].
  pose proof (Z.div_mod (Zpos m + X - 1) X ltac:(lia)) as Hdm.
  pose proof (Z.mod_pos_bound (Zpos m + X - 1) X ltac:(lia)) as Hmod.
  set (p := (Zpos m + X - 1) / X) in *. clearbody p.
  set (r := (Zpos m + X - 1) mod X) in *. clearbody r.
  split; nia.
Qed.

Lemma getPaginatedData_length {A} (data : list A) (page : Z) :
  (length (getPaginatedData data page ITEMS_PER_PAGE) <= 5)%nat.
Proof.
  unfold getPaginatedData, slice, sliceIndex, ITEMS_PER_PAGE.
  rewrite length_take.
  set (len := Z.of_nat (length data)).
  assert (0 <= len) by (subst len; lia).
  repeat case_match; lia.
Qed.

Lemma getPaginatedData_beyond {A} (data : list A) (page : Z) :
  0 < page -> Z.of_nat (length data) <= (page - 1) * 5 ->
  getPaginatedData data page ITEMS_PER_PAGE = [].
Proof.
  intros Hpage Hlen.
  unfold getPaginatedData, slice, sliceIndex, ITEMS_PER_PAGE.
  set (len := Z.of_nat (length data)) in *.
  fails ((page - 1) * 5 <? 0).
  fails ((page - 1) * 5 + 5 <? 0).
  rewrite !Z.min_r by lia. rewrite Z.sub_diag. reflexivity.
Qed.

(** C6.  For every total item count (a non-negative integer below [2^53],
    which covers every array length) [getPageCount(total)] with the default
    page size 5 is the ceiling of [total / 5]: the integer [pages] with
    [pages - 1 < total / 5 <= pages].  In particular [pageCount(0, 5) = 0],
    [pageCount(5, 5) = 1] and [pageCount(6, 5) = 2]. *)
Theorem getPageCount_is_ceiling :
  forall total : Z,
    0 <= total < 2 ^ 53 ->
    (exists pages : Z,
       getPageCount total ITEMS_PER_PAGE = Some pages
       /\ 5 * (pages - 1) < total <= 5 * pages)
    /\ getPageCount 0 5 = Some 0
    /\ getPageCount 5 5 = Some 1
    /\ getPageCount 6 5 = Some 2.
Proof.
  intros total Ht. split; [by apply getPageCount_spec|].
  repeat split; vm_compute; reflexivity.
Qed.

Lemma getPageCount_is_ceiling_witness :
  0 <= 7 < 2 ^ 53
  /\ ((exists pages : Z,
         getPageCount 7 ITEMS_PER_PAGE = Some pages
         /\ 5 * (pages - 1) < 7 <= 5 * pages)
      /\ getPageCount 0 5 = Some 0
      /\ getPageCount 5 5 = Some 1
      /\ getPageCount 6 5 = Some 2).
Proof.
  split; [lia|]. apply (getPageCount_is_ceiling 7). lia.
Defined.

(** C7.  For every sequence (of fewer than [2^53] items, which covers every
    array) and every page number at least 1, [getPaginatedData(seq, page)]
    with the default page size 5 has at most 5 items, and it is empty for
    every page greater than [getPageCount(seq.length)]. *)
Theorem getPaginatedData_page_bounds :
  forall (A : Type) (seq : list A) (page : Z),
    1 <= page -> Z.of_nat (length seq) < 2 ^ 53 ->
    (length (getPaginatedData seq page ITEMS_PER_PAGE) <= 5)%nat
    /\ exists pages : Z,
         getPageCount (Z.of_nat (length seq)) ITEMS_PER_PAGE = Some pages
         /\ (pages < page -> getPaginatedData seq page ITEMS_PER_PAGE = []).
Proof.
  intros A seq page Hpage Hlen. split; [apply getPaginatedData_length|].
  destruct (getPageCount_spec (Z.of_nat (length seq)) ltac:(lia))
    as (pages & Hpages & Hceil).
  exists pages. split; [done|].
  intros Hbeyond. apply getPaginatedData_beyond; lia.
Qed.

Lemma getPaginatedData_page_bounds_witness :
  1 <= 2 /\ Z.of_nat (length [1; 2; 3; 4; 5; 6; 7]) < 2 ^ 53
  /\ (length (getPaginatedData [1; 2; 3; 4; 5; 6; 7] 2 ITEMS_PER_PAGE) <= 5)%nat
  /\ exists pages : Z,
       getPageCount (Z.of_nat (length [1; 2; 3; 4; 5; 6; 7])) ITEMS_PER_PAGE
       = Some pages
       /\ (pages < 2 ->
           getPaginatedData [1; 2; 3; 4; 5; 6; 7] 2 ITEMS_PER_PAGE = []).
Proof.
  split; [lia|]. split; [simpl; lia|].
  apply (getPaginatedData_page_bounds Z [1; 2; 3; 4; 5; 6; 7] 2);
    [lia | simpl; lia].
Defined.

Lemma toFixed1_nearest (T L : Z) :
  0 < T < 2 ^ 48 -> 0 < L < 2 ^ 53 ->
  exists n : Z,
    JsNumber.toFixed1 (JsNumber.div T L) = Some (JsNumber.fixed1 n)
    /\ 0 <= n
    /\ NearestTenth T L n.
Proof.
  intros HT HL.
  destruct (div_accurate T L ltac:(lia) HL) as (m & E & -> & HE & Hm & Hacc).
  assert (0 < 2 ^ E) as HX by (apply Z.pow_pos_nonneg; lia).
  assert (E <> 0) as HE0.
  { intros ->. simpl in Hacc.
    assert (2 ^ 52 * L <= Zpos m * L) by (apply Z.mul_le_mono_nonneg_r; lia).
    lia. }
  unfold JsNumber.toFixed1, JsNumber.atLeast1e21, JsNumber.tenths.
  fails (0 <=? - E).
  rewrite Z.opp_involutive.
  replace (1 - - E) with (1 + E) by lia.
  rewrite Z.pow_add_r, Z.pow_1_r by lia.
  set (X := 2 ^ E) in *. clearbody X.
  replace (10 ^ 21 * X <=? Zpos m) with false
    by (symmetry; apply Z.leb_gt; nia).
  eexists. split; [reflexivity|].
  pose proof (Z.div_mod (20 * Zpos m + X) (2 * X) ltac:(lia)) as Hdm.
  pose proof (Z.mod_pos_bound (20 * Zpos m + X) (2 * X) ltac:(lia)) as Hmod.
  set (n := (20 * Zpos m + X) / (2 * X)) in *. clearbody n.
  set (r := (20 * Zpos m + X) mod (2 * X)) in *. clearbody r.
  assert (0 <= n) as Hn by nia.
  split; [done|]. unfold NearestTenth.
  assert (2 ^ 52 * L <= Zpos m * L) as HmL
    by (apply Z.mul_le_mono_nonneg_r; lia).
  (* a tie point between the exact mean and its double would force
     [X <= 10 * L], and then the mean would be at least [2^52 / 10] *)
  assert (X <= 10 * L -> False) as Hfar.
  { intros HXL.
    assert (T * X <= T * (10 * L)) by (apply Z.mul_le_mono_nonneg_l; lia).
    assert (20 * T * L <= 20 * (2 ^ 48 - 1) * L)
      by (apply Z.mul_le_mono_nonneg_r; lia).
    lia. }
  assert (2 * (n * X) * L = (20 * Zpos m + X - r) * L) as Hprod
    by (rewrite Hdm; ring).
  destruct (Z.le_gt_cases (2 * Z.abs (10 * T - n * L)) L) as [|Hbad]; [done|].
  exfalso. apply Hfar.
  destruct (Z.le_gt_cases 0 (10 * T - n * L)) as [Hpos|Hneg].
  - rewrite Z.abs_eq in Hbad by done.
    assert ((2 * n * L + L + 1) * X <= 20 * T * X)
      by (apply Z.mul_le_mono_nonneg_r; lia).
    assert (r * L <= (2 * X - 1) * L) by (apply Z.mul_le_mono_nonneg_r; lia).
    lia.
  - rewrite Z.abs_neq in Hbad by lia.
    assert ((20 * T + L + 1) * X <= 2 * n * L * X)
      by (apply Z.mul_le_mono_nonneg_r; lia).
    assert (0 <= r * L) by (apply Z.mul_nonneg_nonneg; lia).
    lia.
Qed.

(** ** Average peer count *)

Lemma sumPeerCounts_nonneg (nodes : list NodeRecord) :
  Forall (fun n => 0 <= peer_count n) nodes -> 0 <= sumPeerCounts nodes.
Proof.
  induction 1 as [|n nodes Hn _ IH]; unfold sumPeerCounts in *; simpl; lia.
Qed.

Lemma add_safe (a b : Z) :
  0 <= a -> 0 <= b -> a + b <= 2 ^ 53 -> JsNumber.add a b = Some (a + b).
Proof.
  intros Ha Hb Hab. unfold JsNumber.add, JsNumber.safe.
  repeat match goal with
    | |- context [?x <=? ?y] =>
        holds (x <=? y)
    end.
  reflexivity.
Qed.

Lemma peerCountTotal_fold (nodes : list NodeRecord) (acc : Z) :
  Forall (fun n => 0 <= peer_count n) nodes ->
  0 <= acc -> acc + sumPeerCounts nodes <= 2 ^ 53 ->
  fold_left
    (fun acc node =>
       match acc with
       | Some a => JsNumber.add a (peer_count node)
       | None => None
       end)
    nodes (Some acc)
  = Some (acc + sumPeerCounts nodes).
Proof.
  intros Hnodes. revert acc.
  induction Hnodes as [|n nodes Hn Hrest IH]; intros acc Hacc Hsum; simpl.
  - by rewrite Z.add_0_r.
  - pose proof (sumPeerCounts_nonneg nodes Hrest) as Hpos.
    unfold sumPeerCounts in *. simpl in Hsum.
    rewrite add_safe by lia. rewrite IH by lia. f_equal. lia.
Qed.

(** Below [2^53] the reducer computes the exact sum. *)
Lemma peerCountTotal_exact (nodes : list NodeRecord) :
  Forall (fun n => 0 <= peer_count n) nodes ->
  sumPeerCounts nodes <= 2 ^ 53 ->
  peerCountTotal nodes = Some (sumPeerCounts nodes).
Proof.
  intros Hnodes Hsum. unfold peerCountTotal.
  by rewrite peerCountTotal_fold.
Qed.



(** The scenario of the spec: three rows with peer counts 4, 6 and 2. *)
Example averagePeerCount_scenario :
  averagePeerCount [node "A" "1.0" 4; node "A" "1.0" 6; node "B" "1.1" 2]
  = Some (VString "4.0").
Proof. vm_compute. reflexivity. Qed.

(** When the mean lies exactly halfway between two one-decimal values, the
    double nearest to the mean decides: 3/20 = 0.15 gives "0.1" (the double is
    just below 0.15), 1/4 = 0.25 gives "0.3" (the double is exact and the
    tie goes up). *)
Example averagePeerCount_ties :
  averagePeerCount twentyNodes = Some (VString "0.1")
  /\ averagePeerCount (node "A" "1.0" 1 :: repeat (node "B" "1.0" 0) 3)
     = Some (VString "0.3").
Proof. split; vm_compute; reflexivity. Qed.


(** ** The scenario of the spec

    Three rows: peer A seen twice on version 1.0, peer B once on 1.1. *)
Example three_rows_scenario :
  let nodes := [node "A" "1.0" 4; node "A" "1.0" 6; node "B" "1.1" 2] in
  currentActiveNodes nodes = 3
  /\ activePeerIds nodes = ["A"; "B"]
  /\ versionDistribution nodes = [("1.0", VInt 2); ("1.1", VInt 1)]
  /\ JsObject.sumOfCounts (versionDistribution nodes) = Some 3.
Proof. repeat split. Qed.

(** * More properties of the component *)

(** ** Pages *)

(** From page 1 on, a page is five items after skipping the earlier pages. *)
Lemma getPaginatedData_take_drop {A} (data : list A) (page : Z) :
  1 <= page ->
  getPaginatedData data page ITEMS_PER_PAGE
  = take 5 (drop (5 * Z.to_nat (page - 1)) data).
Proof.
  intros Hpage.
  unfold getPaginatedData, slice, sliceIndex, ITEMS_PER_PAGE.
  set (len := Z.of_nat (length data)).
  fails ((page - 1) * 5 <? 0). fails ((page - 1) * 5 + 5 <? 0).
  destruct (Z.le_gt_cases len ((page - 1) * 5)) as [Hout|Hin].
  - rewrite !drop_ge by (subst len; lia). by rewrite !take_nil.
  - rewrite (Z.min_l ((page - 1) * 5)) by lia.
    replace (Z.to_nat ((page - 1) * 5)) with (5 * Z.to_nat (page - 1))%nat by lia.
    destruct (Z.le_gt_cases ((page - 1) * 5 + 5) len) as [Hfull|Hpart].
    + rewrite Z.min_l by lia. f_equal. lia.
    + rewrite Z.min_r by lia.
      rewrite !take_ge; [done | |]; rewrite length_drop; subst len; lia.
Qed.

Lemma pagesUpTo_concat {A} (data : list A) (n : nat) :
  concat (pagesUpTo data n) = take (5 * n) data.
Proof.
  unfold pagesUpTo. induction n as [|n IH]; [by rewrite take_0|].
  rewrite seq_S, map_app, concat_app, IH. cbn [map concat].
  rewrite getPaginatedData_take_drop by lia. rewrite app_nil_r.
  replace (Z.to_nat (Z.of_nat (1 + n) - 1)) with n by lia.
  replace (5 * S n)%nat with (5 * n + 5)%nat by lia.
  by rewrite take_take_drop.
Qed.

(** X1.  The pages of a sequence (of fewer than [2^53] items), from page 1
    to the page count, put one after the other give the sequence back:
    pagination loses, repeats and reorders nothing. *)
Theorem pages_partition_the_sequence :
  forall (A : Type) (data : list A),
    Z.of_nat (length data) < 2 ^ 53 ->
    exists pages : Z,
      getPageCount (Z.of_nat (length data)) ITEMS_PER_PAGE = Some pages
      /\ 0 <= pages
      /\ concat (pagesUpTo data (Z.to_nat pages)) = data.
Proof.
  intros A data Hlen.
  destruct (getPageCount_spec (Z.of_nat (length data)) ltac:(lia))
    as (pages & Hpages & Hceil).
  exists pages. split; [done|]. split; [lia|].
  rewrite pagesUpTo_concat. apply take_ge. lia.
Qed.

Lemma pages_partition_the_sequence_witness :
  Z.of_nat (length sevenItems) < 2 ^ 53
  /\ exists pages : Z,
       getPageCount (Z.of_nat (length sevenItems)) ITEMS_PER_PAGE = Some pages
       /\ 0 <= pages
       /\ concat (pagesUpTo sevenItems (Z.to_nat pages)) = sevenItems.
Proof.
  split; [vm_compute; reflexivity|].
  apply (pages_partition_the_sequence Z sevenItems). vm_compute. reflexivity.
Defined.

(** X2.  The item at position [i] of a sequence (counting from 0) is the
    item at position [i mod 5] of page [i / 5 + 1]; past the end of the
    sequence both are absent. *)
Theorem page_holds_its_items :
  forall (A : Type) (data : list A) (i : nat),
    getPaginatedData data (Z.of_nat (i / 5) + 1) ITEMS_PER_PAGE !! (i mod 5)%nat
    = data !! i.
Proof.
  intros A data i. rewrite getPaginatedData_take_drop by lia.
  pose proof (Nat.mod_upper_bound i 5 ltac:(lia)) as Hmod.
  rewrite lookup_take_lt by lia. rewrite lookup_drop. f_equal.
  replace (Z.to_nat (Z.of_nat (i / 5) + 1 - 1)) with (i / 5)%nat by lia.
  symmetry. apply Nat.div_mod_eq.
Qed.

Lemma getPaginatedData_size {A} (data : list A) (page : Z) :
  1 <= page ->
  Z.of_nat (length (getPaginatedData data page ITEMS_PER_PAGE))
  = Z.max 0 (Z.min 5 (Z.of_nat (length data) - 5 * (page - 1))).
Proof.
  intros Hpage. rewrite getPaginatedData_take_drop by done.
  rewrite length_take, length_drop. lia.
Qed.

(** X3.  Every page from 1 to the page count is non-empty: the pages before
    the last hold exactly 5 items, the last one holds the remaining
    [len - 5 * (pages - 1)] items. *)
Theorem page_sizes :
  forall (A : Type) (data : list A) (page pages : Z),
    Z.of_nat (length data) < 2 ^ 53 ->
    getPageCount (Z.of_nat (length data)) ITEMS_PER_PAGE = Some pages ->
    1 <= page <= pages ->
    (page < pages ->
     length (getPaginatedData data page ITEMS_PER_PAGE) = 5%nat)
    /\ (page = pages ->
        Z.of_nat (length (getPaginatedData data page ITEMS_PER_PAGE))
        = Z.of_nat (length data) - 5 * (pages - 1))
    /\ (1 <= length (getPaginatedData data page ITEMS_PER_PAGE) <= 5)%nat.
Proof.
  intros A data page pages Hlen Hpages Hpage.
  destruct (getPageCount_spec (Z.of_nat (length data)) ltac:(lia))
    as (pages' & Hpages' & Hceil).
  assert (pages' = pages) as -> by congruence.
  pose proof (getPaginatedData_size data page ltac:(lia)) as Hsize.
  repeat split; try intros ?; lia.
Qed.

Lemma page_sizes_witness :
  Z.of_nat (length sevenItems) < 2 ^ 53
  /\ getPageCount (Z.of_nat (length sevenItems)) ITEMS_PER_PAGE = Some 2
  /\ 1 <= 2 <= 2
  /\ (2 < 2 -> length (getPaginatedData sevenItems 2 ITEMS_PER_PAGE) = 5%nat)
  /\ (2 = 2 ->
      Z.of_nat (length (getPaginatedData sevenItems 2 ITEMS_PER_PAGE))
      = Z.of_nat (length sevenItems) - 5 * (2 - 1))
  /\ (1 <= length (getPaginatedData sevenItems 2 ITEMS_PER_PAGE) <= 5)%nat.
Proof.
  split; [vm_compute; reflexivity|]. split; [vm_compute; reflexivity|].
  split; [lia|].
  apply (page_sizes Z sevenItems 2 2);
    [vm_compute; reflexivity | vm_compute; reflexivity | lia].
Defined.

(** X4.  For every integer page number, also below 1 or beyond the page
    count, [getPaginatedData] returns a contiguous segment of the sequence:
    it never invents, repeats or reorders items.  Page 0 is empty. *)
Theorem page_is_a_segment :
  forall (A : Type) (data : list A) (page : Z),
    (exists before after : list A,
       data = (before ++ getPaginatedData data page ITEMS_PER_PAGE ++ after)%list)
    /\ (page = 0 -> getPaginatedData data page ITEMS_PER_PAGE = []).
Proof.
  intros A data page. split.
  - unfold getPaginatedData, slice.
    match goal with
    | |- context [take ?c (drop ?k data)] =>
        exists (take k data), (drop c (drop k data))
    end.
    by rewrite !take_drop.
  - intros ->. unfold getPaginatedData, slice, sliceIndex, ITEMS_PER_PAGE.
    simpl. set (len := Z.of_nat (length data)).
    assert (0 <= len) by (subst len; lia).
    match goal with
    | |- take ?c _ = [] => replace c with 0%nat by lia
    end.
    reflexivity.
Qed.

(** ** Pagination controls *)

Lemma page_in_range_nonempty {A} (data : list A) (page pages : Z) :
  Z.of_nat (length data) < 2 ^ 53 ->
  getPageCount (Z.of_nat (length data)) ITEMS_PER_PAGE = Some pages ->
  1 <= page <= pages ->
  getPaginatedData data page ITEMS_PER_PAGE <> [].
Proof.
  intros Hlen Hpages Hpage Hnil.
  destruct (getPageCount_spec (Z.of_nat (length data)) ltac:(lia))
    as (pages' & Hpages' & Hceil).
  assert (pages' = pages) as -> by congruence.
  pose proof (getPaginatedData_size data page ltac:(lia)) as Hsize.
  rewrite Hnil in Hsize. simpl in Hsize. lia.
Qed.

(** X5.  With the peer page between 1 and the page count (1 for an empty
    list), neither button of the pagination controls takes it out of that
    range: each click leaves the page as it is (the button is disabled at the
    end of the range) or moves it by one, and the page it moves to is never
    empty. *)
Theorem peer_page_controls_stay_in_range :
  forall (st : DashboardState) (pages : Z),
    Z.of_nat (length (displayPeerIds st)) < 2 ^ 53 ->
    totalPeerPages st = Some pages ->
    1 <= peerPage st <= Z.max 1 pages ->
    (1 <= peerPage (clickNextPeerPage st) <= Z.max 1 pages
     /\ (peerPage (clickNextPeerPage st) = peerPage st
         \/ (peerPage (clickNextPeerPage st) = peerPage st + 1
             /\ paginatedPeerIds (clickNextPeerPage st) <> [])))
    /\ (1 <= peerPage (clickPreviousPeerPage st) <= Z.max 1 pages
        /\ (peerPage (clickPreviousPeerPage st) = peerPage st
            \/ (peerPage (clickPreviousPeerPage st) = peerPage st - 1
                /\ paginatedPeerIds (clickPreviousPeerPage st) <> []))).
Proof.
  intros st pages Hlen Hpages Hpage. split.
  - unfold clickNextPeerPage. rewrite Hpages.
    destruct (Z.leb_spec pages (peerPage st)) as [Hlast|Hmore].
    + split; [lia | by left].
    + split; [simpl; lia|]. right. split; [done|].
      unfold paginatedPeerIds. simpl peerPage.
      apply (page_in_range_nonempty _ _ pages); [done | done | lia].
  - unfold clickPreviousPeerPage.
    destruct (Z.leb_spec (peerPage st) 1) as [Hfirst|Hmore].
    + split; [lia | by left].
    + split; [simpl; lia|]. right. split; [done|].
      unfold paginatedPeerIds. simpl peerPage.
      apply (page_in_range_nonempty _ _ pages); [done | done | lia].
Qed.

Lemma peer_page_controls_stay_in_range_witness :
  Z.of_nat (length (displayPeerIds (loadedWith sixPeers))) < 2 ^ 53
  /\ totalPeerPages (loadedWith sixPeers) = Some 2
  /\ 1 <= peerPage (loadedWith sixPeers) <= Z.max 1 2
  /\ 1 <= peerPage (clickNextPeerPage (loadedWith sixPeers)) <= Z.max 1 2.
Proof.
  split; [vm_compute; reflexivity|]. split; [vm_compute; reflexivity|].
  split; [vm_compute; split; discriminate|].
  apply (peer_page_controls_stay_in_range (loadedWith sixPeers) 2);
    [vm_compute; reflexivity | vm_compute; reflexivity
     | vm_compute; split; discriminate].
Defined.

(** X6.  The same for the version list: with the version page between 1 and
    its page count, the controls keep it there and never move to an empty
    page. *)
Theorem version_page_controls_stay_in_range :
  forall (st : DashboardState) (pages : Z),
    Z.of_nat (length (versionEntries st)) < 2 ^ 53 ->
    totalVersionPages st = Some pages ->
    1 <= versionPage st <= Z.max 1 pages ->
    (1 <= versionPage (clickNextVersionPage st) <= Z.max 1 pages
     /\ (versionPage (clickNextVersionPage st) = versionPage st
         \/ (versionPage (clickNextVersionPage st) = versionPage st + 1
             /\ paginatedVersions (clickNextVersionPage st) <> [])))
    /\ (1 <= versionPage (clickPreviousVersionPage st) <= Z.max 1 pages
        /\ (versionPage (clickPreviousVersionPage st) = versionPage st
            \/ (versionPage (clickPreviousVersionPage st) = versionPage st - 1
                /\ paginatedVersions (clickPreviousVersionPage st) <> []))).
Proof.
  intros st pages Hlen Hpages Hpage. split.
  - unfold clickNextVersionPage. rewrite Hpages.
    destruct (Z.leb_spec pages (versionPage st)) as [Hlast|Hmore].
    + split; [lia | by left].
    + split; [simpl; lia|]. right. split; [done|].
      unfold paginatedVersions. simpl versionPage.
      apply (page_in_range_nonempty _ _ pages); [done | done | lia].
  - unfold clickPreviousVersionPage.
    destruct (Z.leb_spec (versionPage st) 1) as [Hfirst|Hmore].
    + split; [lia | by left].
    + split; [simpl; lia|]. right. split; [done|].
      unfold paginatedVersions. simpl versionPage.
      apply (page_in_range_nonempty _ _ pages); [done | done | lia].
Qed.

Lemma version_page_controls_stay_in_range_witness :
  Z.of_nat (length (versionEntries (loadedWith sixPeers))) < 2 ^ 53
  /\ totalVersionPages (loadedWith sixPeers) = Some 1
  /\ 1 <= versionPage (loadedWith sixPeers) <= Z.max 1 1
  /\ 1 <= versionPage (clickNextVersionPage (loadedWith sixPeers)) <= Z.max 1 1.
Proof.
  split; [vm_compute; reflexivity|]. split; [vm_compute; reflexivity|].
  split; [vm_compute; split; discriminate|].
  apply (version_page_controls_stay_in_range (loadedWith sixPeers) 1);
    [vm_compute; reflexivity | vm_compute; reflexivity
     | vm_compute; split; discriminate].
Defined.

(** ** More on the search filter *)

Lemma lowerUnit_idemp (c : ascii) :
  JsString.lowerUnit (JsString.lowerUnit c) = JsString.lowerUnit c.
Proof. destruct c as [[] [] [] [] [] [] [] []]; reflexivity. Qed.

Lemma toLowerCase_idemp (s : string) :
  JsString.toLowerCase (JsString.toLowerCase s) = JsString.toLowerCase s.
Proof.
  induction s as [|c s IH]; [done|]. simpl. by rewrite lowerUnit_idemp, IH.
Qed.



Lemma includes_empty (s : string) : JsString.includes s "" = true.
Proof. by destruct s. Qed.



(** X7.  The filter expression keeps every peer id, unchanged and in order,
    when the query is the empty string. *)
Theorem searchFilter_empty_query :
  forall ids : list string, searchFilter ids "" = ids.
Proof.
  intros ids. induction ids as [|x ids IH]; [done|].
  rewrite searchFilter_cons. simpl JsString.toLowerCase at 2.
  by rewrite includes_empty, IH.
Qed.

(** X8.  The case of the query does not matter: a query gives the same
    results as its lower-cased form, so two queries with the same lower-cased
    form give the same results. *)
Theorem searchFilter_ignores_case :
  forall (ids : list string) (q q' : string),
    searchFilter ids (JsString.toLowerCase q) = searchFilter ids q
    /\ (JsString.toLowerCase q' = JsString.toLowerCase q ->
        searchFilter ids q' = searchFilter ids q).
Proof.
  intros ids q q'. unfold searchFilter. split.
  - by rewrite toLowerCase_idemp.
  - by intros ->.
Qed.


(** ** The search effect, continued *)

Lemma blank_false_truthy (q : string) :
  JsString.blank q = false -> JsString.truthy q = true.
Proof. by destruct q. Qed.

(** X10.  After the query changes to a text that is not empty or white
    space only, the stored and the displayed results are the matches among
    the distinct peer ids, the spinner flag is off, the first page holds the
    first five matches, and (peers loaded, at least one peer) the card shows
    "No matching peer IDs found" exactly when nothing matches. *)
Theorem search_shows_the_matches :
  forall (st : DashboardState) (q : string),
    q <> searchQuery st -> JsString.blank q = false ->
    searchResults (onSearchChange q st)
    = searchFilter (activePeerIds (activeNodes st)) q
    /\ displayPeerIds (onSearchChange q st)
       = searchFilter (activePeerIds (activeNodes st)) q
    /\ isSearching (onSearchChange q st) = false
    /\ paginatedPeerIds (onSearchChange q st)
       = take 5 (searchFilter (activePeerIds (activeNodes st)) q)
    /\ (ComponentLoading.peers (componentLoading st) = false ->
        activePeerIds (activeNodes st) <> [] ->
        peersPanel (onSearchChange q st)
        = match searchFilter (activePeerIds (activeNodes st)) q with
          | [] => NoMatchingPeers
          | _ :: _ =>
              PeerList (take 5 (searchFilter (activePeerIds (activeNodes st)) q))
                       1 (totalPeerPages (onSearchChange q st))
          end).
Proof.
  intros st q Hne Hb. rewrite onSearchChange_changed by done.
  unfold searchEffect. simpl searchQuery. rewrite truthy_trim, Hb.
  cbn [negb].
  change (activeNodes (setSearchQuery st q)) with (activeNodes st).
  remember (searchFilter (activePeerIds (activeNodes st)) q) as results eqn:Hres.
  assert (displayPeerIds
            (setIsSearching
               (setPeerPage
                  (setSearchResults (setIsSearching (setSearchQuery st q) true)
                     results) 1) false) = results) as Hdisplay.
  { unfold displayPeerIds. simpl. by rewrite blank_false_truthy. }
  assert (paginatedPeerIds
            (setIsSearching
               (setPeerPage
                  (setSearchResults (setIsSearching (setSearchQuery st q) true)
                     results) 1) false) = take 5 results) as Hpage.
  { unfold paginatedPeerIds. rewrite Hdisplay. simpl peerPage.
    rewrite getPaginatedData_take_drop by lia. reflexivity. }
  split; [done|]. split; [done|]. split; [done|]. split; [done|].
  intros Hloaded Hids. unfold peersPanel. rewrite Hpage. simpl.
  rewrite Hloaded, blank_false_truthy by done.
  clear Hres. destruct (activePeerIds (activeNodes st)); [done|].
  simpl. by destruct results.
Qed.

Lemma search_shows_the_matches_witness :
  "P1" <> searchQuery (loadedWith sixPeers)
  /\ JsString.blank "P1" = false
  /\ searchResults (onSearchChange "P1" (loadedWith sixPeers))
     = searchFilter (activePeerIds (activeNodes (loadedWith sixPeers))) "P1".
Proof.
  split; [discriminate|]. split; [reflexivity|].
  apply (search_shows_the_matches (loadedWith sixPeers) "P1");
    [discriminate | reflexivity].
Defined.

(** ** The loader, continued *)

Ltac by_outcome metricsResult nodesResult :=
  simpl;
  destruct (q_error metricsResult) as [?|]; simpl;
  [|destruct (q_error nodesResult) as [?|]; simpl;
    [|destruct (noLength (q_data metricsResult)
                && noLength (q_data nodesResult)); simpl]].

(** X11.  Whatever the store answers, a load cycle leaves the search query,
    the stored search results, the spinner flag, both page numbers and the
    timeframe as they were.  In particular, while a query is typed in, the
    list displayed after a refresh is the one computed before it: the search
    results are not recomputed from the new rows. *)
Theorem fetchData_leaves_search_and_pages :
  forall (tf : string) (metricsResult : QueryResult MetricRow)
         (nodesResult : QueryResult NodeRecord) (st : DashboardState),
    searchQuery (run (fetchData tf) metricsResult nodesResult st) = searchQuery st
    /\ searchResults (run (fetchData tf) metricsResult nodesResult st)
       = searchResults st
    /\ isSearching (run (fetchData tf) metricsResult nodesResult st)
       = isSearching st
    /\ versionPage (run (fetchData tf) metricsResult nodesResult st)
       = versionPage st
    /\ peerPage (run (fetchData tf) metricsResult nodesResult st) = peerPage st
    /\ timeframe (run (fetchData tf) metricsResult nodesResult st) = timeframe st
    /\ (JsString.truthy (searchQuery st) = true ->
        displayPeerIds (run (fetchData tf) metricsResult nodesResult st)
        = searchResults st).
Proof.
  intros tf metricsResult nodesResult st.
  unfold displayPeerIds.
  by_outcome metricsResult nodesResult; repeat split; by intros ->.
Qed.

(** X12.  Every load cycle ends with [loading] off, and it ends without an
    error exactly when both queries succeed and at least one of them returns
    rows; an error left by an earlier cycle does not survive. *)
Theorem fetchData_error_taxonomy :
  forall (tf : string) (metricsResult : QueryResult MetricRow)
         (nodesResult : QueryResult NodeRecord) (st : DashboardState),
    loading (run (fetchData tf) metricsResult nodesResult st) = false
    /\ (error (run (fetchData tf) metricsResult nodesResult st) = None <->
        q_error metricsResult = None /\ q_error nodesResult = None
        /\ (orEmpty (q_data metricsResult) <> []
            \/ orEmpty (q_data nodesResult) <> [])).
Proof.
  intros tf metricsResult nodesResult st. simpl.
  destruct (q_error metricsResult) as [e|]; simpl.
  { split; [done|]. split; [done | by intros [? _]]. }
  destruct (q_error nodesResult) as [e|]; simpl.
  { split; [done|]. split; [done | by intros (_ & ? & _)]. }
  unfold noLength.
  destruct (orEmpty (q_data metricsResult)), (orEmpty (q_data nodesResult));
    simpl; (split; [done|]); split; try done.
  - by intros (_ & _ & [?|?]).
  - intros _. repeat split. by right.
  - intros _. repeat split. by left.
  - intros _. repeat split. by left.
Qed.

(** X13.  The two queries are issued one after the other: the metrics query
    first, with the limit of the timeframe, and the nodes query only when the
    metrics query has succeeded. *)
Theorem fetchData_queries_in_sequence :
  forall (tf : string) (metricsResult : QueryResult MetricRow)
         (nodesResult : QueryResult NodeRecord),
    issued (fetchData tf) metricsResult nodesResult
    = match q_error metricsResult with
      | Some _ => [MetricsQuery (metricsLimit tf)]
      | None => [MetricsQuery (metricsLimit tf); NodesQuery]
      end.
Proof.
  intros tf metricsResult nodesResult.
  by_outcome metricsResult nodesResult; done.
Qed.

(** X14.  When the metrics query fails, the rows of the earlier cycle stay
    in place, all four loading flags are left on, and the error state holds
    the message of the failure. *)
Theorem fetchData_when_metrics_fail :
  forall (tf message : string) (metricsResult : QueryResult MetricRow)
         (nodesResult : QueryResult NodeRecord) (st : DashboardState),
    q_error metricsResult = Some message ->
    metrics (run (fetchData tf) metricsResult nodesResult st) = metrics st
    /\ activeNodes (run (fetchData tf) metricsResult nodesResult st)
       = activeNodes st
    /\ componentLoading (run (fetchData tf) metricsResult nodesResult st)
       = allLoading
    /\ error (run (fetchData tf) metricsResult nodesResult st) = Some message.
Proof.
  intros tf message metricsResult nodesResult st Hm. simpl. rewrite Hm. done.
Qed.

Lemma fetchData_when_metrics_fail_witness :
  q_error (failed (A := MetricRow) "timeout") = Some "timeout"
  /\ metrics (run (fetchData "7d") (failed "timeout") (rows threeRows)
               (loadedWith sixPeers))
     = metrics (loadedWith sixPeers).
Proof.
  split; [reflexivity|].
  apply (fetchData_when_metrics_fail "7d" "timeout" (failed "timeout")
           (rows threeRows) (loadedWith sixPeers)).
  reflexivity.
Defined.

(** X15.  When the metrics query succeeds and the nodes query fails, the new
    metrics rows are stored and their loading flag is off, the node rows of
    the earlier cycle stay in place with the nodes, versions and peers flags
    left on, and the error state holds the message of the failure. *)
Theorem fetchData_when_nodes_fail :
  forall (tf message : string) (metricsResult : QueryResult MetricRow)
         (nodesResult : QueryResult NodeRecord) (st : DashboardState),
    q_error metricsResult = None -> q_error nodesResult = Some message ->
    metrics (run (fetchData tf) metricsResult nodesResult st)
    = orEmpty (q_data metricsResult)
    /\ activeNodes (run (fetchData tf) metricsResult nodesResult st)
       = activeNodes st
    /\ componentLoading (run (fetchData tf) metricsResult nodesResult st)
       = metricsLoaded allLoading
    /\ error (run (fetchData tf) metricsResult nodesResult st) = Some message.
Proof.
  intros tf message metricsResult nodesResult st Hm Hn.
  simpl. rewrite Hm. simpl. rewrite Hn. done.
Qed.

Lemma fetchData_when_nodes_fail_witness :
  q_error (rows twoDays) = None
  /\ q_error (failed (A := NodeRecord) "timeout") = Some "timeout"
  /\ metrics (run (fetchData "7d") (rows twoDays) (failed "timeout")
               (loadedWith sixPeers))
     = orEmpty (q_data (rows twoDays)).
Proof.
  split; [reflexivity|]. split; [reflexivity|].
  apply (fetchData_when_nodes_fail "7d" "timeout" (rows twoDays)
           (failed "timeout") (loadedWith sixPeers));
    reflexivity.
Defined.

(** X16.  When both queries succeed, the rows they returned (none for a
    [null] result) replace the earlier ones and all four loading flags are
    off, also when the cycle ends with "No data available". *)
Theorem fetchData_when_both_succeed :
  forall (tf : string) (metricsResult : QueryResult MetricRow)
         (nodesResult : QueryResult NodeRecord) (st : DashboardState),
    q_error metricsResult = None -> q_error nodesResult = None ->
    metrics (run (fetchData tf) metricsResult nodesResult st)
    = orEmpty (q_data metricsResult)
    /\ activeNodes (run (fetchData tf) metricsResult nodesResult st)
       = orEmpty (q_data nodesResult)
    /\ componentLoading (run (fetchData tf) metricsResult nodesResult st)
       = {| ComponentLoading.metrics := false; ComponentLoading.nodes := false;
            ComponentLoading.versions := false; ComponentLoading.peers := false |}.
Proof.
  intros tf metricsResult nodesResult st Hm Hn.
  simpl. rewrite Hm. simpl. rewrite Hn. simpl.
  by destruct (noLength (q_data metricsResult) && noLength (q_data nodesResult)).
Qed.

Lemma fetchData_when_both_succeed_witness :
  q_error (rows twoDays) = None
  /\ q_error (rows threeRows) = None
  /\ metrics (run (fetchData "7d") (rows twoDays) (rows threeRows) initialState)
     = orEmpty (q_data (rows twoDays)).
Proof.
  split; [reflexivity|]. split; [reflexivity|].
  apply (fetchData_when_both_succeed "7d" (rows twoDays) (rows threeRows)
           initialState);
    reflexivity.
Defined.

(** X17.  While the nodes query is pending after a successful metrics
    query, the new metrics rows are already stored and their loading flag is
    off, the other three flags and [loading] are still on, no error is set and
    the node rows are those of the earlier cycle. *)
Theorem fetchData_reveals_metrics_first :
  forall (tf : string) (metricsResult : QueryResult MetricRow)
         (nodesResult : QueryResult NodeRecord) (st : DashboardState),
    q_error metricsResult = None ->
    exists st1 s1 st2 k,
      advance (fetchData tf) st = (st1, s1)
      /\ resume s1 metricsResult nodesResult st1 = (st2, WaitingForNodes k)
      /\ metrics st2 = orEmpty (q_data metricsResult)
      /\ componentLoading st2 = metricsLoaded allLoading
      /\ loading st2 = true
      /\ error st2 = None
      /\ activeNodes st2 = activeNodes st.
Proof.
  intros tf metricsResult nodesResult st Hm.
  eexists _, _, _, _. split; [reflexivity|]. simpl. rewrite Hm. simpl.
  repeat split.
Qed.

Lemma fetchData_reveals_metrics_first_witness :
  q_error (rows twoDays) = None
  /\ exists st1 s1 st2 k,
       advance (fetchData "7d") initialState = (st1, s1)
       /\ resume s1 (rows twoDays) (rows threeRows) st1 = (st2, WaitingForNodes k)
       /\ metrics st2 = orEmpty (q_data (rows twoDays))
       /\ componentLoading st2 = metricsLoaded allLoading
       /\ loading st2 = true
       /\ error st2 = None
       /\ activeNodes st2 = activeNodes initialState.
Proof.
  split; [reflexivity|].
  apply (fetchData_reveals_metrics_first "7d" (rows twoDays) (rows threeRows)
           initialState).
  reflexivity.
Defined.

(** ** Version distribution, continued *)

Lemma versionDistribution_snoc (nodes : list NodeRecord) (n : NodeRecord) :
  versionDistribution (nodes ++ [n])
  = JsObject.set (versionDistribution nodes) (version n)
      (JsObject.plusOne
         (JsObject.orZero (JsObject.get (versionDistribution nodes) (version n)))).
Proof. unfold versionDistribution. by rewrite fold_left_app. Qed.

Lemma getOwn_setOwn (o : JsObject.t) (k k' : string) (v : value) :
  JsObject.getOwn (JsObject.setOwn o k v) k'
  = if String.eqb k' k then Some v else JsObject.getOwn o k'.
Proof.
  induction o as [|[k0 v0] o IH]; simpl.
  - by destruct (String.eqb k' k).
  - destruct (String.eqb k k0) eqn:E; simpl.
    + apply String.eqb_eq in E as ->. by destruct (String.eqb k' k0).
    + destruct (String.eqb k' k0) eqn:E'; [|done].
      apply String.eqb_eq in E' as ->.
      rewrite String.eqb_sym in E. by rewrite E.
Qed.

Lemma rowsWithVersion_snoc (v : string) (nodes : list NodeRecord) (n : NodeRecord) :
  rowsWithVersion v (nodes ++ [n])
  = rowsWithVersion v nodes + (if String.eqb (version n) v then 1 else 0).
Proof.
  unfold rowsWithVersion. rewrite List.filter_app, length_app. simpl.
  destruct (String.eqb (version n) v); simpl; lia.
Qed.

Lemma rowsWithVersion_nonneg (v : string) (nodes : list NodeRecord) :
  0 <= rowsWithVersion v nodes.
Proof. unfold rowsWithVersion. lia. Qed.

(** What the reducer has stored under each key, as long as no version
    string is a property name of [Object.prototype]. *)
Lemma versionDistribution_getOwn (nodes : list NodeRecord) (v : string) :
  Forall (fun n => JsObject.inherited (version n) = false) nodes ->
  JsObject.getOwn (versionDistribution nodes) v
  = if rowsWithVersion v nodes =? 0 then None
    else Some (VInt (rowsWithVersion v nodes)).
Proof.
  revert v. induction nodes as [|n nodes IH] using rev_ind; intros v Hall; [done|].
  apply Forall_app in Hall as [Hnodes Hn]. apply Forall_inv in Hn.
  pose proof (fun v => IH v Hnodes) as IH'. clear IH. rename IH' into IH.
  rewrite versionDistribution_snoc, rowsWithVersion_snoc.
  pose proof (rowsWithVersion_nonneg (version n) nodes) as Hk.
  assert (JsObject.plusOne
            (JsObject.orZero (JsObject.get (versionDistribution nodes) (version n)))
          = VInt (rowsWithVersion (version n) nodes + 1)) as ->.
  { unfold JsObject.inherited in Hn. apply orb_false_iff in Hn as [Hp Hm].
    unfold JsObject.get. rewrite Hp, Hm, (IH (version n)).
    destruct (Z.eqb_spec (rowsWithVersion (version n) nodes) 0) as [->|Hne];
      [done|].
    unfold JsObject.orZero. simpl.
    by destruct (Z.eqb_spec (rowsWithVersion (version n) nodes) 0). }
  unfold JsObject.set.
  replace (String.eqb (version n) "__proto__") with false
    by (unfold JsObject.inherited in Hn; by apply orb_false_iff in Hn as [-> _]).
  rewrite getOwn_setOwn, String.eqb_sym.
  destruct (String.eqb_spec (version n) v) as [->|Hne].
  - pose proof (rowsWithVersion_nonneg v nodes).
    by destruct (Z.eqb_spec (rowsWithVersion v nodes + 1) 0); [lia|].
  - rewrite Z.add_0_r. apply IH.
Qed.

Lemma keys_setOwn (o : JsObject.t) (k : string) (v : value) :
  map fst (JsObject.setOwn o k v) = JsSet.add (map fst o) k.
Proof.
  unfold JsSet.add, JsSet.has.
  induction o as [|[k0 v0] o IH]; [done|]. simpl.
  destruct (String.eqb k k0); simpl; [done|].
  rewrite IH. by destruct (existsb (String.eqb k) (map fst o)).
Qed.

Lemma versionDistribution_keys (nodes : list NodeRecord) :
  Forall (fun n => JsObject.inherited (version n) = false) nodes ->
  map fst (versionDistribution nodes) = JsSet.from (map version nodes).
Proof.
  induction nodes as [|n nodes IH] using rev_ind; intros Hall; [done|].
  apply Forall_app in Hall as [Hnodes Hn]. apply Forall_inv in Hn.
  rewrite versionDistribution_snoc, map_app.
  change (map version [n]) with [version n]. rewrite from_snoc.
  unfold JsObject.set.
  replace (String.eqb (version n) "__proto__") with false
    by (unfold JsObject.inherited in Hn; by apply orb_false_iff in Hn as [-> _]).
  by rewrite keys_setOwn, IH.
Qed.

Lemma getOwn_NoDup (o : JsObject.t) (k : string) (v : value) :
  NoDup (map fst o) -> (k, v) ∈ o -> JsObject.getOwn o k = Some v.
Proof.
  induction o as [|[k0 v0] o IH]; [by intros _ ?%elem_of_nil|].
  simpl. intros [Hk0 Hnd]%NoDup_cons [[= -> ->]|Hin]%elem_of_cons.
  - by rewrite String.eqb_refl.
  - destruct (String.eqb_spec k k0) as [->|Hne]; [|by apply IH].
    exfalso. apply Hk0. apply list_elem_of_fmap. by exists (k0, v).
Qed.

Lemma map_keys_values (o : JsObject.t) (f : string -> value) :
  (forall k v, (k, v) ∈ o -> v = f k) ->
  o = map (fun k => (k, f k)) (map fst o).
Proof.
  induction o as [|[k0 v0] o IH]; intros Hf; [done|]. simpl.
  rewrite (Hf k0 v0) by left. f_equal. apply IH.
  intros k v Hin. apply Hf. by right.
Qed.

(** Without array indices among the keys, [Object.entries] follows the
    creation order. *)
Lemma Object_entries_named (o : JsObject.t) :
  Forall (fun kv => arrayIndex kv.1 = None) o -> Object_entries o = o.
Proof.
  intros Hall.
  assert (indexedProperties o = [] /\ namedProperties o = o) as [Hi Hn].
  { induction Hall as [|[k v] o Hk _ [IHi IHn]]; [done|]. simpl in *.
    rewrite Hk. by rewrite IHi, IHn. }
  unfold Object_entries. by rewrite Hi, Hn.
Qed.

Lemma insertByIndex_perm (e : N * (string * value)) (l : list (N * (string * value))) :
  insertByIndex e l ≡ₚ e :: l.
Proof.
  induction l as [|e' l IH]; [done|]. simpl.
  destruct (e.1 <=? e'.1)%N; [done|].
  rewrite IH. apply Permutation_swap.
Qed.

(** [Object.entries] loses and repeats nothing. *)
Lemma Object_entries_perm (o : JsObject.t) : Object_entries o ≡ₚ o.
Proof.
  unfold Object_entries.
  assert (map snd (foldr insertByIndex [] (indexedProperties o))
          ≡ₚ map snd (indexedProperties o)) as ->.
  { apply fmap_Permutation.
    induction (indexedProperties o) as [|e l IH]; [done|]. simpl.
    by rewrite insertByIndex_perm, IH. }
  induction o as [|[k v] o IH]; [done|]. simpl.
  destruct (arrayIndex k); simpl.
  - by rewrite IH.
  - rewrite <- Permutation_middle. by rewrite IH.
Qed.

(** X19.  When no version string is a property name of [Object.prototype],
    the entries of the version list are the distinct versions, each once and
    each with the number of rows that bear it.  They stand in the order in
    which the versions are first seen when no version string is an array
    index (such as "7"); array indices are listed first. *)
Theorem versionEntries_lists_each_version :
  forall st : DashboardState,
    Forall (fun n => JsObject.inherited (version n) = false) (activeNodes st) ->
    versionEntries st
      ≡ₚ map (fun v => (v, VInt (rowsWithVersion v (activeNodes st))))
             (JsSet.from (map version (activeNodes st)))
    /\ (Forall (fun n => arrayIndex (version n) = None) (activeNodes st) ->
        versionEntries st
        = map (fun v => (v, VInt (rowsWithVersion v (activeNodes st))))
              (JsSet.from (map version (activeNodes st)))).
Proof.
  intros st Hall. unfold versionEntries.
  set (nodes := activeNodes st) in *.
  assert (versionDistribution nodes
          = map (fun v => (v, VInt (rowsWithVersion v nodes)))
                (JsSet.from (map version nodes))) as Hobj.
  { rewrite <- versionDistribution_keys by done.
    apply map_keys_values. intros k v Hin.
    apply getOwn_NoDup in Hin;
      [|rewrite versionDistribution_keys by done; apply from_NoDup].
    rewrite versionDistribution_getOwn in Hin by done.
    destruct (rowsWithVersion k nodes =? 0); congruence. }
  split.
  - rewrite Object_entries_perm. by rewrite Hobj at 1.
  - intros Hnamed. rewrite Object_entries_named; [done|].
    rewrite Hobj. apply Forall_forall. intros [k v] Hin.
    apply list_elem_of_fmap in Hin as (k' & [= -> ->] & Hk').
    apply from_elem_of, list_elem_of_fmap in Hk' as (n & -> & Hn).
    by apply (proj1 (Forall_forall _ _) Hnamed).
Qed.

Lemma versionEntries_lists_each_version_witness :
  Forall (fun n => JsObject.inherited (version n) = false)
         (activeNodes (loadedWith threeRows))
  /\ versionEntries (loadedWith threeRows)
     ≡ₚ map (fun v => (v, VInt (rowsWithVersion v (activeNodes (loadedWith threeRows)))))
            (JsSet.from (map version (activeNodes (loadedWith threeRows)))).
Proof.
  split; [repeat constructor|].
  apply (versionEntries_lists_each_version (loadedWith threeRows)).
  repeat constructor.
Defined.

(** X18.  When no version string is a property name of [Object.prototype],
    [versionDistribution] holds under every version the number of rows that
    bear it, and holds nothing under a version that no row bears. *)
Theorem versionDistribution_counts_each_version :
  forall (nodes : list NodeRecord) (v : string),
    Forall (fun n => JsObject.inherited (version n) = false) nodes ->
    (rowsWithVersion v nodes = 0 ->
     JsObject.getOwn (versionDistribution nodes) v = None)
    /\ (rowsWithVersion v nodes <> 0 ->
        JsObject.getOwn (versionDistribution nodes) v
        = Some (VInt (rowsWithVersion v nodes))).
Proof.
  intros nodes v Hall. rewrite versionDistribution_getOwn by done.
  split; intros H; by destruct (Z.eqb_spec (rowsWithVersion v nodes) 0).
Qed.

Lemma versionDistribution_counts_each_version_witness :
  Forall (fun n => JsObject.inherited (version n) = false) threeRows
  /\ (rowsWithVersion "1.0" threeRows <> 0 ->
      JsObject.getOwn (versionDistribution threeRows) "1.0"
      = Some (VInt (rowsWithVersion "1.0" threeRows))).
Proof.
  split; [repeat constructor|].
  apply (versionDistribution_counts_each_version threeRows "1.0").
  repeat constructor.
Defined.

(** X20.  Once the versions are loaded, and when no version string is a
    property name of [Object.prototype], the card shows "No version data
    available" exactly when there are no rows. *)
Theorem versionsPanel_empty_state :
  forall st : DashboardState,
    Forall (fun n => JsObject.inherited (version n) = false) (activeNodes st) ->
    ComponentLoading.versions (componentLoading st) = false ->
    (versionsPanel st = NoVersionData <-> activeNodes st = []).
Proof.
  intros st Hall Hloaded. unfold versionsPanel, Object_keys. rewrite Hloaded.
  rewrite length_map, (Permutation_length (Object_entries_perm _)).
  rewrite <- (length_map fst), versionDistribution_keys by done.
  destruct (activeNodes st) as [|n nodes] eqn:E; [done|].
  assert (JsSet.from (map version (n :: nodes)) <> []) as Hne.
  { intros Hnil. assert (version n ∈ JsSet.from (map version (n :: nodes))) as Hin
      by (apply from_elem_of; left).
    rewrite Hnil in Hin. by apply elem_of_nil in Hin. }
  destruct (JsSet.from (map version (n :: nodes))); [done|]. simpl.
  split; done.
Qed.

Lemma versionsPanel_empty_state_witness :
  Forall (fun n => JsObject.inherited (version n) = false)
         (activeNodes (loadedWith threeRows))
  /\ ComponentLoading.versions (componentLoading (loadedWith threeRows)) = false
  /\ (versionsPanel (loadedWith threeRows) = NoVersionData <->
      activeNodes (loadedWith threeRows) = []).
Proof.
  split; [repeat constructor|]. split; [reflexivity|].
  apply (versionsPanel_empty_state (loadedWith threeRows));
    [repeat constructor | reflexivity].
Defined.

(** ** Distinct peer ids, continued *)

Lemma from_NoDup_id (xs : list string) : NoDup xs -> JsSet.from xs = xs.
Proof.
  induction xs as [|z xs IH] using rev_ind; [done|].
  intros (Hxs & Hz & _)%NoDup_app. rewrite from_snoc, IH by done.
  unfold JsSet.add.
  destruct (JsSet.has xs z) eqn:E; [|done].
  apply has_elem_of in E. exfalso. apply (Hz z E). by left.
Qed.

(** X22.  There are at most as many distinct peer ids as rows; when the
    rows have pairwise different peer ids the list is the column itself; and
    the list is empty exactly when there are no rows. *)
Theorem activePeerIds_at_most_rows :
  forall nodes : list NodeRecord,
    (length (activePeerIds nodes) <= length nodes)%nat
    /\ (NoDup (map peer_id nodes) -> activePeerIds nodes = map peer_id nodes)
    /\ (activePeerIds nodes = [] <-> nodes = []).
Proof.
  intros nodes. unfold activePeerIds. split; [|split].
  - rewrite <- (length_map peer_id nodes).
    apply submseteq_length, NoDup_submseteq; [apply from_NoDup|].
    intros x. apply from_elem_of.
  - apply from_NoDup_id.
  - split; [|by intros ->].
    destruct nodes as [|n nodes]; [done|]. intros Hnil.
    assert (peer_id n ∈ JsSet.from (map peer_id (n :: nodes))) as Hin
      by (apply from_elem_of; left).
    rewrite Hnil in Hin. by apply elem_of_nil in Hin.
Qed.

(** ** Total nodes *)

Lemma sumNewRecords_nonneg (metrics : list MetricRow) :
  Forall (fun day => 0 <= new_records_count day) metrics ->
  0 <= sumNewRecords metrics.
Proof.
  induction 1 as [|day metrics Hday _ IH]; unfold sumNewRecords in *; simpl; lia.
Qed.

Lemma totalNodes_fold (metrics : list MetricRow) (acc : Z) :
  Forall (fun day => 0 <= new_records_count day) metrics ->
  0 <= acc -> acc + sumNewRecords metrics <= 2 ^ 53 ->
  fold_left
    (fun acc day =>
       match acc with
       | Some a => JsNumber.add a (new_records_count day)
       | None => None
       end)
    metrics (Some acc)
  = Some (acc + sumNewRecords metrics).
Proof.
  intros Hall. revert acc.
  induction Hall as [|day metrics Hday Hrest IH]; intros acc Hacc Hsum; simpl.
  - by rewrite Z.add_0_r.
  - pose proof (sumNewRecords_nonneg metrics Hrest) as Hpos.
    unfold sumNewRecords in *. simpl in Hsum.
    rewrite add_safe by lia. rewrite IH by lia. f_equal. lia.
Qed.

(** X23.  For non-negative counts adding up to at most [2^53], [totalNodes]
    is the exact sum of [new_records_count] over the metrics rows (8 for the
    rows of the spec's scenario, 0 for no rows). *)
Theorem totalNodes_is_the_sum :
  forall metrics : list MetricRow,
    Forall (fun day => 0 <= new_records_count day) metrics ->
    sumNewRecords metrics <= 2 ^ 53 ->
    totalNodes metrics = Some (sumNewRecords metrics).
Proof.
  intros metrics Hall Hsum. unfold totalNodes. by rewrite totalNodes_fold.
Qed.

Lemma totalNodes_is_the_sum_witness :
  Forall (fun day => 0 <= new_records_count day) twoDays
  /\ sumNewRecords twoDays <= 2 ^ 53
  /\ totalNodes twoDays = Some (sumNewRecords twoDays).
Proof.
  split; [repeat constructor; simpl; lia|].
  split; [vm_compute; discriminate|].
  apply (totalNodes_is_the_sum twoDays);
    [repeat constructor; simpl; lia | vm_compute; discriminate].
Defined.

(** ** Average peer count, continued *)

Lemma averagePeerCount_tenths (nodes : list NodeRecord) :
  nodes <> [] ->
  Forall (fun n => 0 <= peer_count n) nodes ->
  sumPeerCounts nodes < 2 ^ 48 ->
  Z.of_nat (length nodes) < 2 ^ 53 ->
  exists n : Z,
    averagePeerCount nodes = Some (VString (JsNumber.fixed1 n))
    /\ NearestTenth (sumPeerCounts nodes) (Z.of_nat (length nodes)) n.
Proof.
  intros Hne Hnodes Hsum Hlen. unfold averagePeerCount.
  assert (0 < Z.of_nat (length nodes)) as Hpos
    by (destruct nodes; [done | simpl; lia]).
  fails (Z.of_nat (length nodes) =? 0).
  rewrite peerCountTotal_exact by (done || lia).
  pose proof (sumPeerCounts_nonneg nodes Hnodes) as Hsum0.
  destruct (Z.eq_dec (sumPeerCounts nodes) 0) as [Hz|Hnz].
  - rewrite Hz, div_zero by lia. exists 0.
    split; [reflexivity|]. unfold NearestTenth. lia.
  - destruct (toFixed1_nearest (sumPeerCounts nodes) (Z.of_nat (length nodes)))
      as (n & -> & Hn & Hnear); [lia | lia |].
    by exists n.
Qed.

Lemma sumPeerCounts_between (nodes : list NodeRecord) (lo hi : Z) :
  Forall (fun n => lo <= peer_count n <= hi) nodes ->
  lo * Z.of_nat (length nodes) <= sumPeerCounts nodes
  <= hi * Z.of_nat (length nodes).
Proof.
  induction 1 as [|n nodes Hn _ IH]; unfold sumPeerCounts in *; simpl length;
    simpl foldr; lia.
Qed.

(** X24.  For rows whose peer counts lie between [lo >= 0] and [hi] (sum
    below [2^48]), the displayed average lies between [lo] and [hi] as well;
    when all rows have the same peer count [c], it is [c] with one decimal
    [0]. *)
Theorem averagePeerCount_between_extremes :
  forall (nodes : list NodeRecord) (lo hi : Z),
    nodes <> [] ->
    Forall (fun n => lo <= peer_count n <= hi) nodes ->
    0 <= lo ->
    sumPeerCounts nodes < 2 ^ 48 ->
    Z.of_nat (length nodes) < 2 ^ 53 ->
    (exists n : Z,
       averagePeerCount nodes = Some (VString (JsNumber.fixed1 n))
       /\ 10 * lo <= n <= 10 * hi)
    /\ (lo = hi ->
        averagePeerCount nodes = Some (VString (JsNumber.fixed1 (10 * lo)))).
Proof.
  intros nodes lo hi Hne Hall Hlo Hsum Hlen.
  assert (Forall (fun n => 0 <= peer_count n) nodes) as Hnonneg.
  { eapply Forall_impl; [exact Hall|]. simpl. intros n Hn. lia. }
  destruct (averagePeerCount_tenths nodes Hne Hnonneg Hsum Hlen)
    as (n & Havg & Hnear).
  pose proof (sumPeerCounts_between nodes lo hi Hall) as Hbetween.
  assert (0 < Z.of_nat (length nodes)) as Hpos
    by (destruct nodes; [done | simpl; lia]).
  unfold NearestTenth in Hnear.
  set (T := sumPeerCounts nodes) in *. set (L := Z.of_nat (length nodes)) in *.
  clearbody T L.
  assert (10 * lo <= n <= 10 * hi) as Hn by (split; nia).
  split; [by exists n|].
  intros ->. rewrite Havg. do 3 f_equal. lia.
Qed.

Lemma averagePeerCount_between_extremes_witness :
  threeRows <> []
  /\ Forall (fun n => 2 <= peer_count n <= 6) threeRows
  /\ exists n : Z,
       averagePeerCount threeRows = Some (VString (JsNumber.fixed1 n))
       /\ 10 * 2 <= n <= 10 * 6.
Proof.
  split; [discriminate|]. split; [repeat constructor; simpl; lia|].
  apply (averagePeerCount_between_extremes threeRows 2 6);
    [discriminate | repeat constructor; simpl; lia | lia
     | vm_compute; reflexivity | vm_compute; reflexivity].
Defined.

(** X21.  When no version string is a property name of [Object.prototype],
    the counts of [versionDistribution] add up to the number of rows. *)
Theorem versionDistribution_counts_add_up :
  forall nodes : list NodeRecord,
    Forall (fun n => JsObject.inherited (version n) = false) nodes ->
    JsObject.sumOfCounts (versionDistribution nodes)
    = Some (currentActiveNodes nodes).
Proof.
  intros nodes Hnodes. unfold versionDistribution, currentActiveNodes.
  by rewrite (versionDistribution_fold nodes JsObject.empty 0 Hnodes);
    [| constructor |].
Qed.

Lemma versionDistribution_counts_add_up_witness :
  Forall (fun n => JsObject.inherited (version n) = false) threeRows
  /\ JsObject.sumOfCounts (versionDistribution threeRows)
     = Some (currentActiveNodes threeRows).
Proof.
  split; [repeat constructor|].
  apply (versionDistribution_counts_add_up threeRows). repeat constructor.
Defined.
